(** * The archive back ends of Bob ([pym/bob/archive.py])

    A shallow embedding of the artifact-cache layer: the sharded storage key,
    the capability policy of [BaseArchive], the four transport back ends
    ([DummyArchive], [LocalArchive], [SimpleHttpArchive], [CustomArchive]),
    their composition [MultiArchive] and the factory.

    Python objects become records, methods become functions that take the
    object first, mutators return the updated object.  The argument [step] of
    [upload] and [download], which no back end reads, is left out.  Code that talks to the
    operating system runs in a state-and-exception monad over a [World]. *)

From Stdlib Require Import NArith ZArith Ascii String.
From Stdlib.Strings Require Import Byte.
From stdpp Require Import base strings list gmap pretty.

Local Open Scope string_scope.

(** ** Strings as Python uses them *)

(** The characters that cannot be written inside a literal. *)
Definition nl : string := String (ascii_of_nat 10) EmptyString.
Definition dq : string := String (ascii_of_nat 34) EmptyString.

Fixpoint str_take (n : nat) (s : string) : string :=
  match n, s with
  | S n', String c s' => String c (str_take n' s')
  | _, _ => EmptyString
  end.

Fixpoint str_drop (n : nat) (s : string) : string :=
  match n, s with
  | S n', String _ s' => str_drop n' s'
  | _, _ => s
  end.

(** [s[a:b]] and [s[a:]] for literal bounds [0 <= a <= b]. *)
Definition slice (a b : nat) (s : string) : string := str_take (b - a) (str_drop a s).
Definition slice_from (a : nat) (s : string) : string := str_drop a s.

(** [sep.join(l)] *)
Definition join (sep : string) (l : list string) : string := String.concat sep l.

Definition startswith (p s : string) : bool := String.prefix p s.

Fixpoint endswith_char (c : ascii) (s : string) : bool :=
  match s with
  | EmptyString => false
  | String a EmptyString => bool_decide (a = c)
  | String _ s' => endswith_char c s'
  end.

(** [os.path.join] of posixpath: an absolute component restarts the path, a
    separator is inserted unless the path so far is empty or ends in one. *)
Definition os_path_join2 (path b : string) : string :=
  if startswith "/" b then b
  else if bool_decide (path = "") || endswith_char "/"%char path then path ++ b
  else path ++ "/" ++ b.

Definition os_path_join (a : string) (p : list string) : string :=
  foldl os_path_join2 a p.

(** ** Build identifiers and their hexadecimal rendering *)

Definition hexdigit (d : N) : ascii :=
  if (d <? 10)%N then ascii_of_N (48 + d) else ascii_of_N (87 + d).

(** Modelled from the spec: [asHexStr] of [bob.utils], which is imported by
    [archive.py] but is not part of the sources at hand.  The spec has the
    identifier mapper render the build identifier "as lowercase hex": two
    digits per byte, most significant nibble first. *)
Fixpoint asHexStr (buildId : list byte) : string :=
  match buildId with
  | [] => EmptyString
  | x :: rest =>
      String (hexdigit (Byte.to_N x / 16))
        (String (hexdigit (Byte.to_N x mod 16)) (asHexStr rest))
  end.

Definition is_lower_hex (c : ascii) : bool :=
  let n := N_of_ascii c in
  ((48 <=? n) && (n <=? 57) || (97 <=? n) && (n <=? 102))%N.

Fixpoint string_forallb (p : ascii -> bool) (s : string) : bool :=
  match s with
  | EmptyString => true
  | String c s' => p c && string_forallb p s'
  end.

(** The three segments every back end cuts the hexadecimal rendering into. *)
Definition seg1 (buildId : list byte) : string := slice 0 2 (asHexStr buildId).
Definition seg2 (buildId : list byte) : string := slice 2 4 (asHexStr buildId).
Definition seg3 (buildId : list byte) : string := slice_from 4 (asHexStr buildId).

(** ** Exceptions *)

(** The exception classes the module raises or catches.  [HTTPError] is a
    subclass of [URLError], which is a subclass of [OSError]; [BuildError] is
    Bob's own; [OtherError] stands for every other class (a [tarfile] error,
    a [TypeError], ...). *)
Inductive exn :=
| HTTPError (code : Z) (reason : string)
| URLError (reason : string)
| OSError (msg : string)
| BuildError (msg : string)
| OtherError (msg : string).

Definition isinstance_URLError (e : exn) : bool :=
  match e with HTTPError _ _ | URLError _ => true | _ => false end.

Definition isinstance_OSError (e : exn) : bool :=
  match e with HTTPError _ _ | URLError _ | OSError _ => true | _ => false end.

(** [e.reason] of a [URLError], [str(e)] of the others. *)
Definition exn_text (e : exn) : string :=
  match e with
  | HTTPError _ r | URLError r => r
  | OSError m | BuildError m | OtherError m => m
  end.

Inductive result (A : Type) :=
| Ok (a : A)
| Raise (e : exn).
Arguments Ok {A} a.
Arguments Raise {A} e.

(** ** The configuration of one back end *)

(** An archive specification is the dictionary read from the configuration
    after schema validation; every key it may hold is a field, [None] when
    the key is absent. *)
Record ArchiveSpec := {
  spec_backend : option string;
  spec_flags : option (list string);
  spec_path : option string;
  spec_url : option string;
  spec_upload : option string;
  spec_download : option string
}.

(** ** [BaseArchive]: the capability policy *)
Module BaseArchive.

Record t := {
  useDownload : bool;
  useUpload : bool;
  wantDownloadFlag : bool;
  wantUploadFlag : bool
}.

Definition init (spec : ArchiveSpec) : t :=
  let use := default ["upload"; "download"] (spec_flags spec) in
  {| useDownload := bool_decide ("download" ∈ use);
     useUpload := bool_decide ("upload" ∈ use);
     wantDownloadFlag := false;
     wantUploadFlag := false |}.

Definition wantDownload (self : t) (enable : bool) : t :=
  {| useDownload := useDownload self;
     useUpload := useUpload self;
     wantDownloadFlag := enable;
     wantUploadFlag := wantUploadFlag self |}.

Definition wantUpload (self : t) (enable : bool) : t :=
  {| useDownload := useDownload self;
     useUpload := useUpload self;
     wantDownloadFlag := wantDownloadFlag self;
     wantUploadFlag := enable |}.

Definition canDownload (self : t) : bool :=
  wantDownloadFlag self && useDownload self.

Definition canUpload (self : t) : bool :=
  wantUploadFlag self && useUpload self.

End BaseArchive.

(** ** The world outside the process *)

(** One [subprocess.call]: the argument vector, the working directory and
    the environment handed to the child. *)
Record Spawn := {
  spawn_argv : list string;
  spawn_cwd : string;
  spawn_env : gmap string string
}.

(** What [archive.py] takes from its collaborators and from the operating
    system.  The pure helpers come from [bob.tty], [pipes], [textwrap] and
    [os.path]; the actions may change the state of the operating system and
    may raise.  [tar_write name path] is the block
    [with tarfile.open(name, "w:gz") as tar: tar.add(path, arcname=".")],
    [tar_write_tmp path] the same into a [TemporaryFile] that is then read
    back, [tar_extractall name path] the block that opens [name] for reading
    and extracts it into [path].  [urlopen method url data] sends one request
    and raises [HTTPError] on an error status.

    The one law says that an archive that was written without an exception is
    a regular file afterwards. *)
Class Platform := {
  OSState : Type;
  colorize : string → string → string;
  quote : string → string;
  dedent : string → string;
  os_path_abspath : string → string;
  os_path_isfile : string → OSState → bool;
  os_path_isdir : string → OSState → bool;
  os_makedirs : string → OSState → result unit * OSState;
  removePath : string → OSState → result unit * OSState;
  tar_write : string → string → OSState → result unit * OSState;
  tar_write_tmp : string → OSState → result (list byte) * OSState;
  tar_extractall : string → string → OSState → result unit * OSState;
  urlopen : string → string → option (list byte) → OSState → result unit * OSState;
  urlretrieve : string → OSState → result string * OSState;
  urlcleanup : OSState → result unit * OSState;
  mkstemp : OSState → result (Z * string) * OSState;
  os_close : Z → OSState → result unit * OSState;
  os_unlink : string → OSState → result unit * OSState;
  subprocess_call :
    list string → string → gmap string string → OSState → result Z * OSState;
  tar_write_isfile : ∀ name path s s',
    tar_write name path s = (Ok (), s') → os_path_isfile name s' = true
}.

Section World.
Context `{Platform}.

(** The state a method runs in: the environment of the process
    ([os.environ], which the module only reads), what was printed, the
    children that were started, and the operating system. *)
Record World := {
  environ : gmap string string;
  stdout : string;
  spawned : list Spawn;
  os : OSState
}.

(** A method body: it ends with a value or an exception and leaves a world. *)
Definition M (A : Type) : Type := World → result A * World.

#[export] Instance M_ret : MRet M := λ A a w, (Ok a, w).

#[export] Instance M_bind : MBind M := λ A B f m w,
  match m w with
  | (Ok a, w') => f a w'
  | (Raise e, w') => (Raise e, w')
  end.

Definition raise {A} (e : exn) : M A := λ w, (Raise e, w).

(** [try: body / except ...: handler].  The handler answers [None] for an
    exception no clause matches, which then propagates. *)
Definition try_except {A} (body : M A) (handler : exn → option (M A)) : M A :=
  λ w, match body w with
       | (Ok a, w') => (Ok a, w')
       | (Raise e, w') =>
           match handler e with
           | Some h => h w'
           | None => (Raise e, w')
           end
       end.

(** [try: body / finally: fin].  An exception of [fin] replaces the outcome
    of [body]. *)
Definition try_finally {A} (body : M A) (fin : M unit) : M A :=
  λ w, match body w with
       | (r, w') =>
           match fin w' with
           | (Ok _, w'') => (r, w'')
           | (Raise e, w'') => (Raise e, w'')
           end
       end.

(** [print(s, end=e)] *)
Definition print_end (s e : string) : M unit :=
  λ w, (Ok (), {| environ := environ w; stdout := stdout w ++ s ++ e;
                  spawned := spawned w; os := os w |}).

Definition print (s : string) : M unit := print_end s nl.

(** An action of the operating system, run on the world. *)
Definition sys {A} (f : OSState → result A * OSState) : M A :=
  λ w, match f (os w) with
       | (r, s) => (r, {| environ := environ w; stdout := stdout w;
                          spawned := spawned w; os := s |})
       end.

(** [subprocess.call(argv, stdin=DEVNULL, stdout=DEVNULL, cwd=cwd, env=env)];
    the call is recorded in [spawned]. *)
Definition call (argv : list string) (cwd : string) (env : gmap string string) : M Z :=
  λ w, match subprocess_call argv cwd env (os w) with
       | (r, s) =>
           (r, {| environ := environ w; stdout := stdout w;
                  spawned := spawned w ++
                    [{| spawn_argv := argv; spawn_cwd := cwd; spawn_env := env |}];
                  os := s |})
       end.

(** A question to the operating system ([os.path.isfile], ...). *)
Definition query {A} (q : OSState → A) : M A := λ w, (Ok (q (os w)), w).

(** [os.environ] *)
Definition os_environ : M (gmap string string) := λ w, (Ok (environ w), w).

End World.

(** ** Text shared by the generated shell fragments *)

(** The indentation of the templates in the source, which [textwrap.dedent]
    takes away again. *)
Definition ind : string := "            ".

(** [$(hexdump -e '2/1 "%02x/" 14/1 "%02x"' {BUILDID})] *)
Definition hexdump_shard (buildIdFile : string) : string :=
  "$(hexdump -e '2/1 " ++ dq ++ "%02x/" ++ dq ++ " 14/1 " ++ dq ++ "%02x" ++ dq ++ "' "
    ++ buildIdFile ++ ")".

(** [$(hexdump -ve '/1 "%02x"' {BUILDID})] *)
Definition hexdump_flat (buildIdFile : string) : string :=
  "$(hexdump -ve '/1 " ++ dq ++ "%02x" ++ dq ++ "' " ++ buildIdFile ++ ")".

(** ** [DummyArchive] *)
Module DummyArchive.
Section WithPlatform.
Context `{Platform}.

Definition canDownload : bool := false.
Definition canUpload : bool := false.
Definition uploadPackage (buildId : list byte) (path : string) : M unit := mret ().
Definition downloadPackage (buildId : list byte) (path : string) : M bool := mret false.
Definition upload (buildIdFile tgzFile : string) : string := "".
Definition download (buildIdFile tgzFile : string) : string := "".

End WithPlatform.
End DummyArchive.

(** ** [LocalArchive] *)
Module LocalArchive.
Section WithPlatform.
Context `{Platform}.

Record t := {
  base : BaseArchive.t;
  basePath : string
}.

(** [spec["path"]] raises [KeyError] when the key is missing. *)
Definition init (spec : ArchiveSpec) : result t :=
  match spec_path spec with
  | Some p => Ok {| base := BaseArchive.init spec; basePath := os_path_abspath p |}
  | None => Raise (OtherError "KeyError: 'path'")
  end.

Definition wantDownload (self : t) (enable : bool) : t :=
  {| base := BaseArchive.wantDownload (base self) enable; basePath := basePath self |}.

Definition wantUpload (self : t) (enable : bool) : t :=
  {| base := BaseArchive.wantUpload (base self) enable; basePath := basePath self |}.

Definition canDownload (self : t) : bool := BaseArchive.canDownload (base self).
Definition canUpload (self : t) : bool := BaseArchive.canUpload (base self).

Definition packageResultPath (self : t) (buildId : list byte) : string :=
  let packageResultId := asHexStr buildId in
  os_path_join (basePath self) [slice 0 2 packageResultId; slice 2 4 packageResultId].

Definition packageResultFile (self : t) (buildId : list byte) : string :=
  let packageResultId := asHexStr buildId in
  os_path_join (packageResultPath self buildId) [slice_from 4 packageResultId] ++ ".tgz".

Definition uploadPackage (self : t) (buildId : list byte) (path : string) : M unit :=
  if negb (canUpload self) then mret ()
  else
    isfile ← query (os_path_isfile (packageResultFile self buildId));
    if (isfile : bool) then
      print ("   UPLOAD    skipped (" ++ path ++ " exists in archive)")
    else
      print (colorize ("   UPLOAD    " ++ path) "32");;
      isdir ← query (os_path_isdir (packageResultPath self buildId));
      (if negb isdir then sys (os_makedirs (packageResultPath self buildId)) else mret ());;
      sys (tar_write (packageResultFile self buildId) path).

Definition downloadPackage (self : t) (buildId : list byte) (path : string) : M bool :=
  if negb (canDownload self) then mret false
  else
    print_end (colorize ("   DOWNLOAD  " ++ path ++ "...") "32") "";;
    isfile ← query (os_path_isfile (packageResultFile self buildId));
    if (isfile : bool) then
      sys (removePath path);;
      sys (os_makedirs path);;
      sys (tar_extractall (packageResultFile self buildId) path);;
      print (colorize "ok" "32");;
      mret true
    else
      print (colorize "not found" "33");;
      mret false.

Definition upload (self : t) (buildIdFile tgzFile : string) : string :=
  if canUpload self then ""
  else
    nl ++ dedent (join nl [
      ind ++ "# upload artifact";
      ind ++ "cd $WORKSPACE";
      ind ++ "BOB_UPLOAD_FILE=" ++ dq ++ basePath self ++ "/"
          ++ hexdump_shard (quote buildIdFile) ++ ".tgz" ++ dq;
      ind ++ "if [[ ! -e ${BOB_UPLOAD_FILE} ]] ; then";
      ind ++ "    mkdir -p " ++ dq ++ "${BOB_UPLOAD_FILE%/*}" ++ dq;
      ind ++ "    cp " ++ quote tgzFile ++ " " ++ dq ++ "$BOB_UPLOAD_FILE" ++ dq;
      ind ++ "fi" ]).

Definition download (self : t) (buildIdFile tgzFile : string) : string :=
  if negb (canDownload self) then ""
  else
    nl ++ dedent (join nl [
      ind ++ "if [[ ! -e " ++ quote tgzFile ++ " ]] ; then";
      ind ++ "    BOB_DOWNLOAD_FILE=" ++ dq ++ basePath self ++ "/"
          ++ hexdump_shard (quote buildIdFile) ++ ".tgz" ++ dq;
      ind ++ "    cp " ++ dq ++ "$BOB_DOWNLOAD_FILE" ++ dq ++ " " ++ quote tgzFile
          ++ " || echo Download failed: $?";
      ind ++ "fi";
      ind ]).

End WithPlatform.
End LocalArchive.

(** ** [SimpleHttpArchive] *)
Module SimpleHttpArchive.
Section WithPlatform.
Context `{Platform}.

Record t := {
  base : BaseArchive.t;
  url : string
}.

Definition init (spec : ArchiveSpec) : result t :=
  match spec_url spec with
  | Some u => Ok {| base := BaseArchive.init spec; url := u |}
  | None => Raise (OtherError "KeyError: 'url'")
  end.

Definition wantDownload (self : t) (enable : bool) : t :=
  {| base := BaseArchive.wantDownload (base self) enable; url := url self |}.

Definition wantUpload (self : t) (enable : bool) : t :=
  {| base := BaseArchive.wantUpload (base self) enable; url := url self |}.

Definition canDownload (self : t) : bool := BaseArchive.canDownload (base self).
Definition canUpload (self : t) : bool := BaseArchive.canUpload (base self).

Definition _makeUrl (self : t) (buildId : list byte) : string :=
  let packageResultId := asHexStr buildId in
  join "/" [url self; slice 0 2 packageResultId; slice 2 4 packageResultId;
            slice_from 4 packageResultId ++ ".tgz"].

(** The inner [try] answers whether the [HEAD] request found the package,
    which is where the source returns early. *)
Definition uploadPackage (self : t) (buildId : list byte) (path : string) : M unit :=
  if negb (canUpload self) then mret ()
  else
    let url := _makeUrl self buildId in
    try_except
      (present ← try_except
          (sys (urlopen "HEAD" url None);;
           print ("   UPLOAD    skipped (" ++ path ++ " exists in archive)");;
           mret true)
          (λ e, match e with
                | HTTPError code reason =>
                    Some (if bool_decide (code ≠ 404%Z)
                          then raise (BuildError ("Error for HEAD on " ++ url ++ ": " ++ reason))
                          else mret false)
                | _ => None
                end);
       if (present : bool) then mret ()
       else
         print (colorize ("   UPLOAD    " ++ path) "32");;
         data ← sys (tar_write_tmp path);
         sys (urlopen "PUT" url (Some data)))
      (λ e, if isinstance_URLError e
            then Some (raise (BuildError ("Error uploading package: " ++ exn_text e)))
            else None).

Definition downloadPackage (self : t) (buildId : list byte) (path : string) : M bool :=
  if negb (canDownload self) then mret false
  else
    print_end (colorize ("   DOWNLOAD  " ++ path ++ "...") "32") "";;
    let url := _makeUrl self buildId in
    try_finally
      (try_except
         (localFilename ← sys (urlretrieve url);
          sys (removePath path);;
          sys (os_makedirs path);;
          sys (tar_extractall localFilename path);;
          print (colorize "ok" "32");;
          mret true)
         (λ e, if isinstance_URLError e
               then Some (print (colorize (exn_text e) "33");; mret false)
               else if isinstance_OSError e
               then Some (raise (BuildError ("Error: " ++ exn_text e)))
               else None))
      (sys urlcleanup).

Definition upload (self : t) (buildIdFile tgzFile : string) : string :=
  if negb (canUpload self) then ""
  else
    nl ++ dedent (join nl [
      ind ++ "# upload artifact";
      ind ++ "cd $WORKSPACE";
      ind ++ "BOB_UPLOAD_URL=" ++ dq ++ url self ++ "/"
          ++ hexdump_shard (quote buildIdFile) ++ ".tgz" ++ dq;
      ind ++ "if ! curl --output /dev/null --silent --head --fail "
          ++ dq ++ "$BOB_UPLOAD_URL" ++ dq ++ " ; then";
      ind ++ "    curl -sSg -T " ++ quote tgzFile ++ " " ++ dq ++ "$BOB_UPLOAD_URL" ++ dq
          ++ " || echo Upload failed: $?";
      ind ++ "fi" ]).

Definition download (self : t) (buildIdFile tgzFile : string) : string :=
  if negb (canDownload self) then ""
  else
    nl ++ dedent (join nl [
      ind ++ "if [[ ! -e " ++ quote tgzFile ++ " ]] ; then";
      ind ++ "    BOB_DOWNLOAD_URL=" ++ dq ++ url self ++ "/"
          ++ hexdump_shard (quote buildIdFile) ++ ".tgz" ++ dq;
      ind ++ "    curl -sSg --fail -o " ++ quote tgzFile ++ " " ++ dq ++ "$BOB_DOWNLOAD_URL" ++ dq
          ++ " || echo Download failed: $?";
      ind ++ "fi";
      ind ]).

End WithPlatform.
End SimpleHttpArchive.

(** ** [CustomArchive] *)
Module CustomArchive.
Section WithPlatform.
Context `{Platform}.

Record t := {
  base : BaseArchive.t;
  downloadCmd : option string;
  uploadCmd : option string;
  whiteList : gset string
}.

Definition init (spec : ArchiveSpec) (whiteList : gset string) : t :=
  {| base := BaseArchive.init spec;
     downloadCmd := spec_download spec;
     uploadCmd := spec_upload spec;
     whiteList := whiteList |}.

Definition wantDownload (self : t) (enable : bool) : t :=
  {| base := BaseArchive.wantDownload (base self) enable;
     downloadCmd := downloadCmd self; uploadCmd := uploadCmd self;
     whiteList := whiteList self |}.

Definition wantUpload (self : t) (enable : bool) : t :=
  {| base := BaseArchive.wantUpload (base self) enable;
     downloadCmd := downloadCmd self; uploadCmd := uploadCmd self;
     whiteList := whiteList self |}.

Definition _makeUrl (buildId : list byte) : string :=
  let packageResultId := asHexStr buildId in
  join "/" [slice 0 2 packageResultId; slice 2 4 packageResultId;
            slice_from 4 packageResultId ++ ".tgz"].

Definition canDownload (self : t) : bool :=
  BaseArchive.canDownload (base self) && bool_decide (downloadCmd self ≠ None).

Definition canUpload (self : t) : bool :=
  BaseArchive.canUpload (base self) && bool_decide (uploadCmd self ≠ None).

(** The three lines that build the environment of the child, the same in
    [uploadPackage] and [downloadPackage]. *)
Definition child_env (self : t) (environ : gmap string string)
    (tmpName : string) (buildId : list byte) : gmap string string :=
  let env := filter (λ kv, kv.1 ∈ whiteList self) environ in
  let env := <["BOB_LOCAL_ARTIFACT" := tmpName]> env in
  <["BOB_REMOTE_ARTIFACT" := _makeUrl buildId]> env.

(** [["/bin/bash", "-ec", cmd]]; a command that is [None] is refused by
    [subprocess] with a [TypeError]. *)
Definition bash (cmd : option string) (env : gmap string string) : M Z :=
  match cmd with
  | Some c => call ["/bin/bash"; "-ec"; c] "/tmp" env
  | None => raise (OtherError "TypeError")
  end.

Definition uploadPackage (self : t) (buildId : list byte) (path : string) : M unit :=
  if negb (canUpload self) then mret ()
  else
    print (colorize ("   UPLOAD    " ++ path) "32");;
    '(tmpFd, tmpName) ← sys mkstemp;
    try_finally
      (try_except
         (sys (os_close tmpFd);;
          sys (tar_write tmpName path);;
          environ ← os_environ;
          ret ← bash (uploadCmd self) (child_env self environ tmpName buildId);
          if bool_decide (ret ≠ 0%Z)
          then raise (BuildError ("Upload failed: command return with status " ++ pretty ret))
          else mret ())
         (λ e, if isinstance_OSError e
               then Some (raise (BuildError ("Upload failed: " ++ exn_text e)))
               else None))
      (sys (os_unlink tmpName)).

Definition downloadPackage (self : t) (buildId : list byte) (path : string) : M bool :=
  if negb (canDownload self) then mret false
  else
    print_end (colorize ("   DOWNLOAD  " ++ path ++ "...") "32") "";;
    '(tmpFd, tmpName) ← sys mkstemp;
    try_finally
      (try_except
         (sys (os_close tmpFd);;
          environ ← os_environ;
          ret ← bash (downloadCmd self) (child_env self environ tmpName buildId);
          if bool_decide (ret = 0%Z) then
            sys (removePath path);;
            sys (os_makedirs path);;
            sys (tar_extractall tmpName path);;
            print (colorize "ok" "32");;
            mret true
          else
            print (colorize ("failed (exit " ++ pretty ret ++ ")") "33");;
            mret false)
         (λ e, if isinstance_OSError e
               then Some (raise (BuildError ("Download failed: " ++ exn_text e)))
               else None))
      (sys (os_unlink tmpName)).

(** [str.format] renders a command that is [None] as the word [None]. *)
Definition format_cmd (cmd : option string) : string := default "None" cmd.

Definition upload (self : t) (buildIdFile tgzFile : string) : string :=
  if negb (canUpload self) then ""
  else
    nl ++ dedent (join nl [
      ind ++ "# upload artifact";
      ind ++ "cd $WORKSPACE";
      ind ++ "BOB_UPLOAD_BID=" ++ dq ++ hexdump_flat (quote buildIdFile) ++ dq;
      ind ++ "BOB_LOCAL_ARTIFACT=" ++ quote tgzFile;
      ind ++ "BOB_REMOTE_ARTIFACT=" ++ dq
          ++ "${BOB_UPLOAD_BID:0:2}/${BOB_UPLOAD_BID:2:2}/${BOB_UPLOAD_BID:4}.tgz" ++ dq;
      ind ++ format_cmd (uploadCmd self);
      ind ]).

Definition download (self : t) (buildIdFile tgzFile : string) : string :=
  if negb (canDownload self) then ""
  else
    nl ++ dedent (join nl [
      ind ++ "if [[ ! -e " ++ quote tgzFile ++ " ]] ; then";
      ind ++ "    BOB_DOWNLOAD_BID=" ++ dq ++ hexdump_flat (quote buildIdFile) ++ dq;
      ind ++ "    BOB_LOCAL_ARTIFACT=" ++ quote tgzFile;
      ind ++ "    BOB_REMOTE_ARTIFACT=" ++ dq
          ++ "${BOB_DOWNLOAD_BID:0:2}/${BOB_DOWNLOAD_BID:2:2}/${BOB_DOWNLOAD_BID:4}.tgz" ++ dq;
      ind ++ "    " ++ format_cmd (downloadCmd self);
      ind ++ "fi";
      ind ]).

End WithPlatform.
End CustomArchive.

(** ** [MultiArchive] *)

(** The members of a [MultiArchive] are objects of any class that has the
    methods of an archive; the methods of the composite only go through
    those, which are the variables of this section. *)
Module MultiArchive.
Section Members.
Context `{Platform} {A : Type}.
Variable m_wantDownload : A → bool → A.
Variable m_wantUpload : A → bool → A.
Variable m_canDownload : A → bool.
Variable m_canUpload : A → bool.
Variable m_uploadPackage : A → list byte → string → M unit.
Variable m_downloadPackage : A → list byte → string → M bool.
Variable m_upload : A → string → string → string.
Variable m_download : A → string → string → string.

Definition wantDownload (archives : list A) (enable : bool) : list A :=
  map (λ i, m_wantDownload i enable) archives.

Definition wantUpload (archives : list A) (enable : bool) : list A :=
  map (λ i, m_wantUpload i enable) archives.

Definition canDownload (archives : list A) : bool := existsb m_canDownload archives.

Definition canUpload (archives : list A) : bool := existsb m_canUpload archives.

(** The two loops over the members, [for i in self.__archives: ...]. *)
Section Loops.
Variable buildId : list byte.
Variable path : string.

Fixpoint uploadPackage_loop (archives : list A) : M unit :=
  match archives with
  | [] => mret ()
  | i :: rest =>
      if negb (m_canUpload i) then uploadPackage_loop rest
      else m_uploadPackage i buildId path;; uploadPackage_loop rest
  end.

Fixpoint downloadPackage_loop (archives : list A) : M bool :=
  match archives with
  | [] => mret false
  | i :: rest =>
      if negb (m_canDownload i) then downloadPackage_loop rest
      else
        found ← m_downloadPackage i buildId path;
        if (found : bool) then mret true else downloadPackage_loop rest
  end.

End Loops.

Definition uploadPackage (archives : list A) (buildId : list byte) (path : string) : M unit :=
  uploadPackage_loop buildId path archives.

Definition downloadPackage (archives : list A) (buildId : list byte) (path : string) : M bool :=
  downloadPackage_loop buildId path archives.

(** The generator expression [f(i) for i in self.__archives if can(i)]. *)
Fixpoint fragments (can : A → bool) (f : A → string) (archives : list A) : list string :=
  match archives with
  | [] => []
  | i :: rest => if can i then f i :: fragments can f rest else fragments can f rest
  end.

Definition upload (archives : list A) (buildIdFile tgzFile : string) : string :=
  join nl (fragments m_canUpload (λ i, m_upload i buildIdFile tgzFile) archives).

Definition download (archives : list A) (buildIdFile tgzFile : string) : string :=
  join nl (fragments m_canDownload (λ i, m_download i buildIdFile tgzFile) archives).

End Members.
End MultiArchive.

(** ** Archives of any class *)

(** An archive object is an instance of one of the five classes; a method
    call dispatches on the class. *)
#[warnings="-register-all"]
Inductive archive :=
| Dummy
| Local (a : LocalArchive.t)
| Http (a : SimpleHttpArchive.t)
| Custom (a : CustomArchive.t)
| Multi (archives : list archive).

Section Dispatch.
Context `{Platform}.

Fixpoint wantDownload (self : archive) (enable : bool) : archive :=
  match self with
  | Dummy => Dummy
  | Local a => Local (LocalArchive.wantDownload a enable)
  | Http a => Http (SimpleHttpArchive.wantDownload a enable)
  | Custom a => Custom (CustomArchive.wantDownload a enable)
  | Multi archives => Multi (MultiArchive.wantDownload wantDownload archives enable)
  end.

Fixpoint wantUpload (self : archive) (enable : bool) : archive :=
  match self with
  | Dummy => Dummy
  | Local a => Local (LocalArchive.wantUpload a enable)
  | Http a => Http (SimpleHttpArchive.wantUpload a enable)
  | Custom a => Custom (CustomArchive.wantUpload a enable)
  | Multi archives => Multi (MultiArchive.wantUpload wantUpload archives enable)
  end.

Fixpoint canDownload (self : archive) : bool :=
  match self with
  | Dummy => DummyArchive.canDownload
  | Local a => LocalArchive.canDownload a
  | Http a => SimpleHttpArchive.canDownload a
  | Custom a => CustomArchive.canDownload a
  | Multi archives => MultiArchive.canDownload canDownload archives
  end.

Fixpoint canUpload (self : archive) : bool :=
  match self with
  | Dummy => DummyArchive.canUpload
  | Local a => LocalArchive.canUpload a
  | Http a => SimpleHttpArchive.canUpload a
  | Custom a => CustomArchive.canUpload a
  | Multi archives => MultiArchive.canUpload canUpload archives
  end.

Fixpoint uploadPackage (self : archive) (buildId : list byte) (path : string)
    {struct self} : M unit :=
  match self with
  | Dummy => DummyArchive.uploadPackage buildId path
  | Local a => LocalArchive.uploadPackage a buildId path
  | Http a => SimpleHttpArchive.uploadPackage a buildId path
  | Custom a => CustomArchive.uploadPackage a buildId path
  | Multi archives => MultiArchive.uploadPackage canUpload uploadPackage archives buildId path
  end.

Fixpoint downloadPackage (self : archive) (buildId : list byte) (path : string)
    {struct self} : M bool :=
  match self with
  | Dummy => DummyArchive.downloadPackage buildId path
  | Local a => LocalArchive.downloadPackage a buildId path
  | Http a => SimpleHttpArchive.downloadPackage a buildId path
  | Custom a => CustomArchive.downloadPackage a buildId path
  | Multi archives =>
      MultiArchive.downloadPackage canDownload downloadPackage archives buildId path
  end.

Fixpoint upload (self : archive) (buildIdFile tgzFile : string) {struct self} : string :=
  match self with
  | Dummy => DummyArchive.upload buildIdFile tgzFile
  | Local a => LocalArchive.upload a buildIdFile tgzFile
  | Http a => SimpleHttpArchive.upload a buildIdFile tgzFile
  | Custom a => CustomArchive.upload a buildIdFile tgzFile
  | Multi archives => MultiArchive.upload canUpload upload archives buildIdFile tgzFile
  end.

Fixpoint download (self : archive) (buildIdFile tgzFile : string) {struct self} : string :=
  match self with
  | Dummy => DummyArchive.download buildIdFile tgzFile
  | Local a => LocalArchive.download a buildIdFile tgzFile
  | Http a => SimpleHttpArchive.download a buildIdFile tgzFile
  | Custom a => CustomArchive.download a buildIdFile tgzFile
  | Multi archives => MultiArchive.download canDownload download archives buildIdFile tgzFile
  end.

(** ** The factory *)

(** What [archive.py] asks of the recipe set: the environment white list and
    the archive configuration, one specification or a list of them. *)
Inductive ArchiveConfig :=
| OneSpec (spec : ArchiveSpec)
| SpecList (specs : list ArchiveSpec).

Record Recipes := {
  envWhiteList : gset string;
  archiveSpec : ArchiveConfig
}.

Definition getSingleArchiver (recipes : Recipes) (archiveSpec : ArchiveSpec) : result archive :=
  let archiveBackend := default "none" (spec_backend archiveSpec) in
  if bool_decide (archiveBackend = "file") then
    match LocalArchive.init archiveSpec with Ok a => Ok (Local a) | Raise e => Raise e end
  else if bool_decide (archiveBackend = "http") then
    match SimpleHttpArchive.init archiveSpec with Ok a => Ok (Http a) | Raise e => Raise e end
  else if bool_decide (archiveBackend = "shell") then
    Ok (Custom (CustomArchive.init archiveSpec (envWhiteList recipes)))
  else if bool_decide (archiveBackend = "none") then
    Ok Dummy
  else Raise (BuildError ("Invalid archive backend: " ++ archiveBackend)).

(** The list comprehension stops at the first specification that raises. *)
Fixpoint getSingleArchivers (recipes : Recipes) (specs : list ArchiveSpec)
    : result (list archive) :=
  match specs with
  | [] => Ok []
  | i :: rest =>
      match getSingleArchiver recipes i with
      | Raise e => Raise e
      | Ok a =>
          match getSingleArchivers recipes rest with
          | Raise e => Raise e
          | Ok l => Ok (a :: l)
          end
      end
  end.

Definition getArchiver (recipes : Recipes) : result archive :=
  match archiveSpec recipes with
  | SpecList specs =>
      match getSingleArchivers recipes specs with
      | Ok l => Ok (Multi l)
      | Raise e => Raise e
      end
  | OneSpec spec => getSingleArchiver recipes spec
  end.

End Dispatch.

(** ** A simulated platform *)

(** A small operating system to run the model on: the regular files that
    exist, the status every HTTP request is answered with, and the exit
    status of every child.  Nothing else fails. *)
Module Sim.

Record state := {
  files : list string;
  http_status : Z;
  exit_status : Z
}.

Definition http {A} (a : A) (s : state) : result A * state :=
  if bool_decide (http_status s = 200%Z) then (Ok a, s)
  else (Raise (HTTPError (http_status s) ("HTTP Error " ++ pretty (http_status s))), s).

Definition write_file (name : string) (s : state) : result unit * state :=
  (Ok (), {| files := name :: files s; http_status := http_status s;
             exit_status := exit_status s |}).

#[export] Instance platform : Platform := {|
  OSState := state;
  colorize := λ s _, s;
  quote := λ s, s;
  dedent := λ s, s;
  os_path_abspath := λ s, s;
  os_path_isfile := λ name s, bool_decide (name ∈ files s);
  os_path_isdir := λ _ _, false;
  os_makedirs := λ _ s, (Ok (), s);
  removePath := λ _ s, (Ok (), s);
  tar_write := λ name _, write_file name;
  tar_write_tmp := λ _ s, (Ok [], s);
  tar_extractall := λ _ _ s, (Ok (), s);
  urlopen := λ _ _ _, http ();
  urlretrieve := λ _, http "/tmp/download";
  urlcleanup := λ s, (Ok (), s);
  mkstemp := λ s, (Ok (3%Z, "/tmp/tmpfile"), s);
  os_close := λ _ s, (Ok (), s);
  os_unlink := λ _ s, (Ok (), s);
  subprocess_call := λ _ _ _ s, (Ok (exit_status s), s);
  tar_write_isfile := λ name _ s s' (E : write_file name s = (Ok (), s')),
    match E in _ = p return bool_decide (name ∈ files p.2) = true with
    | eq_refl => bool_decide_eq_true_2 _ (list_elem_of_here name (files s))
    end
|}.

Definition world (env : gmap string string) (s : state) : World :=
  {| environ := env; stdout := ""; spawned := []; os := s |}.

(** The specification with nothing but the back end and what it needs. *)
Definition spec (backend : string) (path url upload download : option string) : ArchiveSpec :=
  {| spec_backend := Some backend; spec_flags := None; spec_path := path;
     spec_url := url; spec_upload := upload; spec_download := download |}.

(** A sixteen-byte build identifier. *)
Definition buildId : list byte :=
  [xaa; xbb; xcc; xdd; x00; x01; x02; x03; x04; x05; x06; x07; x08; x09; x0a; x0b].

End Sim.

(** ** The vocabulary of the properties *)

(** A call of one of the two mutators. *)
Inductive want_call :=
| WantDownload (enable : bool)
| WantUpload (enable : bool).

Definition do_want (self : BaseArchive.t) (c : want_call) : BaseArchive.t :=
  match c with
  | WantDownload e => BaseArchive.wantDownload self e
  | WantUpload e => BaseArchive.wantUpload self e
  end.

(** The argument of the last call of each mutator, [false] when it was never
    called. *)
Definition last_download (calls : list want_call) : bool :=
  foldl (λ acc c, match c with WantDownload e => e | WantUpload _ => acc end) false calls.

Definition last_upload (calls : list want_call) : bool :=
  foldl (λ acc c, match c with WantUpload e => e | WantDownload _ => acc end) false calls.

Definition allowed (op : string) (spec : ArchiveSpec) : bool :=
  bool_decide (op ∈ default ["upload"; "download"] (spec_flags spec)).

(** What a member needs besides the wanted flag to download or upload: the
    operation is allowed by its flags and, for the external-command back
    end, the command is configured.  [DummyArchive] never can; a composite
    can when one of its members can. *)
Fixpoint allowedDownload (a : archive) : bool :=
  match a with
  | Dummy => false
  | Local a => BaseArchive.useDownload (LocalArchive.base a)
  | Http a => BaseArchive.useDownload (SimpleHttpArchive.base a)
  | Custom a =>
      BaseArchive.useDownload (CustomArchive.base a)
      && bool_decide (CustomArchive.downloadCmd a ≠ None)
  | Multi archives => existsb allowedDownload archives
  end.

Fixpoint allowedUpload (a : archive) : bool :=
  match a with
  | Dummy => false
  | Local a => BaseArchive.useUpload (LocalArchive.base a)
  | Http a => BaseArchive.useUpload (SimpleHttpArchive.base a)
  | Custom a =>
      BaseArchive.useUpload (CustomArchive.base a)
      && bool_decide (CustomArchive.uploadCmd a ≠ None)
  | Multi archives => existsb allowedUpload archives
  end.

(** The [BaseArchive] part of an object, for the classes that derive from it. *)
Definition base_of (a : archive) : option BaseArchive.t :=
  match a with
  | Local a => Some (LocalArchive.base a)
  | Http a => Some (SimpleHttpArchive.base a)
  | Custom a => Some (CustomArchive.base a)
  | Dummy | Multi _ => None
  end.

Section Vocabulary.
Context `{Platform}.

(** What a skipped upload prints. *)
Definition skipped (path : string) : string :=
  ("   UPLOAD    skipped (" ++ path ++ " exists in archive)") ++ nl.

(** The three statements that unpack a downloaded archive into [path]. *)
Definition unpack (localFilename path : string) : M unit :=
  sys (removePath path);;
  sys (os_makedirs path);;
  sys (tar_extractall localFilename path).

(** The world after the line that announces a download was printed. *)
Definition announced (path : string) (w : World) : World :=
  {| environ := environ w;
     stdout := stdout w ++ colorize ("   DOWNLOAD  " ++ path ++ "...") "32" ++ "";
     spawned := spawned w; os := os w |}.

Section Misses.
Variable buildId : list byte.
Variable path : string.

(** Every member of the list that can download was asked, in order, and
    answered that it has no package; the world went from [w] to [w']. *)
Inductive all_miss : list archive → World → World → Prop :=
| all_miss_nil w : all_miss [] w w
| all_miss_skip m rest w w' :
    canDownload m = false →
    all_miss rest w w' →
    all_miss (m :: rest) w w'
| all_miss_ask m rest w w1 w' :
    canDownload m = true →
    downloadPackage m buildId path w = (Ok false, w1) →
    all_miss rest w1 w' →
    all_miss (m :: rest) w w'.

End Misses.

End Vocabulary.

(** ** Objects and worlds of the simulated platform *)

(** An external-command back end whose upload command is the empty string. *)
Definition empty_upload_command : CustomArchive.t :=
  CustomArchive.wantUpload
    (CustomArchive.init (Sim.spec "shell" None None (Some "") None) ∅) true.

(** Two file back ends over the same directory, the first not asked to
    download, and a world in which the package of [Sim.buildId] is stored. *)
Definition sim_local : LocalArchive.t :=
  {| LocalArchive.base := BaseArchive.init (Sim.spec "file" (Some "/a") None None None);
     LocalArchive.basePath := "/a" |}.

Definition sim_stored : World (H := Sim.platform) :=
  Sim.world ∅ {| Sim.files := ["/a/aa/bb/ccdd000102030405060708090a0b.tgz"];
                 Sim.http_status := 200; Sim.exit_status := 0 |}.

(** The same without any stored package. *)
Definition sim_empty : World (H := Sim.platform) :=
  Sim.world ∅ {| Sim.files := []; Sim.http_status := 200; Sim.exit_status := 0 |}.

(** An HTTP back end that was asked to download, and servers that answer
    every request with 404 and with 500. *)
Definition sim_http : SimpleHttpArchive.t :=
  SimpleHttpArchive.wantDownload
    {| SimpleHttpArchive.base := BaseArchive.init (Sim.spec "http" None (Some "http://cache") None None);
       SimpleHttpArchive.url := "http://cache" |} true.

Definition sim_answers (status : Z) : World (H := Sim.platform) :=
  Sim.world ∅ {| Sim.files := []; Sim.http_status := status; Sim.exit_status := 0 |}.

(** An external-command back end with both commands and [PATH] on its white
    list, asked to upload and to download, in a process that also has
    [SECRET] in its environment. *)
Definition sim_shell : CustomArchive.t :=
  CustomArchive.wantDownload
    (CustomArchive.wantUpload
       (CustomArchive.init (Sim.spec "shell" None None (Some "put") (Some "get")) {["PATH"]})
       true) true.

Definition sim_secret (status : Z) : World (H := Sim.platform) :=
  Sim.world (<["SECRET" := "1"]> {["PATH" := "/bin"]})
    {| Sim.files := []; Sim.http_status := 200; Sim.exit_status := status |}.

Definition sim_child : Spawn :=
  {| spawn_argv := ["/bin/bash"; "-ec"; "put"]; spawn_cwd := "/tmp";
     spawn_env := CustomArchive.child_env sim_shell
                    (<["SECRET" := "1"]> {["PATH" := "/bin"]}) "/tmp/tmpfile" Sim.buildId |}.

(** ** Further objects of the simulated platform *)

(** An external-command back end as the factory builds it, before any call
    of a mutator. *)
Definition sim_shell_fresh : CustomArchive.t :=
  CustomArchive.init (Sim.spec "shell" None None (Some "put") (Some "get")) {["PATH"]}.

(** ** Further vocabulary *)

(** No [LocalArchive] occurs in the archive, at any depth. *)
Fixpoint local_free (a : archive) : bool :=
  match a with
  | Local _ => false
  | Multi archives => forallb local_free archives
  | Dummy | Http _ | Custom _ => true
  end.

Section FurtherVocabulary.
Context `{Platform}.

(** The world after [print(s)]. *)
Definition printed (s : string) (w : World) : World :=
  {| environ := environ w; stdout := stdout w ++ s ++ nl;
     spawned := spawned w; os := os w |}.

(** The world with another state of the operating system. *)
Definition with_os (s : OSState) (w : World) : World :=
  {| environ := environ w; stdout := stdout w; spawned := spawned w; os := s |}.

(** The call ended with a removal of [tmpName] as its last action on the
    operating system, and an exception of the removal is the exception of
    the call. *)
Definition ends_with_unlink {A} (tmpName : string) (out : result A * World) : Prop :=
  ∃ s, os out.2 = (os_unlink tmpName s).2
       ∧ ∀ e, (os_unlink tmpName s).1 = Raise e → out.1 = Raise e.

(** The same for [urllib.request.urlcleanup]. *)
Definition ends_with_urlcleanup {A} (out : result A * World) : Prop :=
  ∃ s, os out.2 = (urlcleanup s).2
       ∧ ∀ e, (urlcleanup s).1 = Raise e → out.1 = Raise e.

(** The children a call started are none, or the one shell that runs [cmd]
    in [/tmp]. *)
Definition started (cmd : option string) (w w' : World) : Prop :=
  spawned w' = spawned w
  ∨ ∃ c env, cmd = Some c
             ∧ spawned w' = (spawned w ++
                 [{| spawn_argv := ["/bin/bash"; "-ec"; c]; spawn_cwd := "/tmp";
                     spawn_env := env |}])%list.

End FurtherVocabulary.

(** The simulated platform with a full disk: extracting an archive raises
    [OSError]; everything else is as in [Sim]. *)
Module SimFull.

#[export] Instance platform : Platform := {|
  OSState := Sim.state;
  colorize := λ s _, s;
  quote := λ s, s;
  dedent := λ s, s;
  os_path_abspath := λ s, s;
  os_path_isfile := λ name s, bool_decide (name ∈ Sim.files s);
  os_path_isdir := λ _ _, false;
  os_makedirs := λ _ s, (Ok (), s);
  removePath := λ _ s, (Ok (), s);
  tar_write := λ name _, Sim.write_file name;
  tar_write_tmp := λ _ s, (Ok [], s);
  tar_extractall := λ _ _ s, (Raise (OSError "No space left on device"), s);
  urlopen := λ _ _ _, Sim.http ();
  urlretrieve := λ _, Sim.http "/tmp/download";
  urlcleanup := λ s, (Ok (), s);
  mkstemp := λ s, (Ok (3%Z, "/tmp/tmpfile"), s);
  os_close := λ _ s, (Ok (), s);
  os_unlink := λ _ s, (Ok (), s);
  subprocess_call := λ _ _ _ s, (Ok (Sim.exit_status s), s);
  tar_write_isfile := λ name _ s s' (E : Sim.write_file name s = (Ok (), s')),
    match E in _ = p return bool_decide (name ∈ Sim.files p.2) = true with
    | eq_refl => bool_decide_eq_true_2 _ (list_elem_of_here name (Sim.files s))
    end
|}.

(** A world in which the package of [Sim.buildId] is stored, every request
    is answered with 200 and every child ends with [status]. *)
Definition world (status : Z) : World (H := platform) :=
  {| environ := ∅; stdout := ""; spawned := [];
     os := {| Sim.files := ["/a/aa/bb/ccdd000102030405060708090a0b.tgz"];
              Sim.http_status := 200; Sim.exit_status := status |} |}.

End SimFull.

(** An archive object of one of the four transport classes. *)
Definition is_single (a : archive) : bool :=
  match a with Multi _ => false | _ => true end.

(** The base directory as [os.path.join] puts it in front of a relative
    component: as it is when it is empty or ends in a slash, followed by a
    slash otherwise. *)
Definition key_prefix (base : string) : string :=
  if bool_decide (base = "") || endswith_char "/"%char base then base else base ++ "/".

(** ** The capability of the back ends the factory builds *)

(** A call of one of the two mutators on an archive of any class. *)
Definition do_want_archive (a : archive) (c : want_call) : archive :=
  match c with
  | WantDownload e => wantDownload a e
  | WantUpload e => wantUpload a e
  end.

(** What the class of the back end asks for besides the flags: the
    external-command back end its command, the file and HTTP back ends
    nothing, while [DummyArchive] never can. *)
Definition class_allows_upload (spec : ArchiveSpec) : bool :=
  let backend := default "none" (spec_backend spec) in
  if bool_decide (backend = "shell") then bool_decide (spec_upload spec ≠ None)
  else negb (bool_decide (backend = "none")).

Definition class_allows_download (spec : ArchiveSpec) : bool :=
  let backend := default "none" (spec_backend spec) in
  if bool_decide (backend = "shell") then bool_decide (spec_download spec ≠ None)
  else negb (bool_decide (backend = "none")).

(** A specification of an external-command back end that has a download
    command and no upload command. *)
Definition spec_download_only : ArchiveSpec :=
  Sim.spec "shell" None None None (Some "get").

(** * Properties *)

(** ** Strings *)

Lemma length_str_take n s : String.length (str_take n s) = n `min` String.length s.
Proof.
  revert s. induction n as [|n IH]; intros [|c s]; simpl; try done.
  by rewrite IH.
Qed.

Lemma length_str_drop n s : String.length (str_drop n s) = String.length s - n.
Proof.
  revert s. induction n as [|n IH]; intros [|c s]; simpl; try done.
Qed.

Lemma str_take_drop n s : str_take n s ++ str_drop n s = s.
Proof.
  revert s. induction n as [|n IH]; intros [|c s]; simpl; try done.
  change (String c (str_take n s ++ str_drop n s) = String c s).
  f_equal. apply IH.
Qed.

Lemma str_drop_drop n m s : str_drop n (str_drop m s) = str_drop (m + n) s.
Proof.
  revert s. induction m as [|m IH]; intros s; simpl; [done|].
  destruct s as [|c s]; simpl; [by destruct n|]. apply IH.
Qed.

Lemma length_asHexStr b : String.length (asHexStr b) = 2 * length b.
Proof. induction b as [|x b IH]; simpl; [done|]. rewrite IH. lia. Qed.

Lemma hexdigit_lower d : (d < 16)%N → is_lower_hex (hexdigit d) = true.
Proof.
  intros Hd.
  assert (Hcases : d ∈ [0; 1; 2; 3; 4; 5; 6; 7; 8; 9; 10; 11; 12; 13; 14; 15]%N).
  { rewrite !elem_of_cons. lia. }
  rewrite !elem_of_cons in Hcases.
  repeat destruct Hcases as [->|Hcases]; try reflexivity.
  by apply elem_of_nil in Hcases.
Qed.

Lemma asHexStr_lower b : string_forallb is_lower_hex (asHexStr b) = true.
Proof.
  induction b as [|x b IH]; simpl; [done|].
  rewrite IH, !hexdigit_lower; [done| |].
  - apply N.mod_lt. done.
  - apply N.Div0.div_lt_upper_bound. pose proof (Byte.to_N_bounded x). lia.
Qed.

Lemma nl_app_nonempty s : nl ++ s ≠ "".
Proof. done. Qed.

(** ** The storage key *)

(** C3.  The key of a build identifier is the hexadecimal rendering cut
    after two and after four digits, joined by slashes and followed by
    [.tgz]; the HTTP back end puts its base URL in front of the very key the
    external-command back end uses.  The rendering is lowercase hexadecimal,
    the three segments make it up again and their lengths add up to twice
    the number of bytes; for an identifier of at least two bytes the first
    two segments have two digits each. *)
Theorem shard_key (self : SimpleHttpArchive.t) (b : list byte) :
  let h := asHexStr b in
  CustomArchive._makeUrl b
    = slice 0 2 h ++ "/" ++ slice 2 4 h ++ "/" ++ slice_from 4 h ++ ".tgz"
  ∧ SimpleHttpArchive._makeUrl self b
    = SimpleHttpArchive.url self ++ "/" ++ CustomArchive._makeUrl b
  ∧ string_forallb is_lower_hex h = true
  ∧ seg1 b ++ seg2 b ++ seg3 b = h
  ∧ (String.length (seg1 b) + String.length (seg2 b) + String.length (seg3 b)
     = 2 * length b)%nat
  ∧ (2 ≤ length b → String.length (seg1 b) = 2 ∧ String.length (seg2 b) = 2)%nat.
Proof.
  intros h. pose proof (length_asHexStr b) as Hlen. fold h in Hlen.
  unfold seg1, seg2, seg3, slice, slice_from. fold h.
  split; [reflexivity|]. split; [reflexivity|].
  split; [apply asHexStr_lower|]. split; [|split; [|intros Hb; split]].
  - change (4 - 2) with 2. change (2 - 0) with 2. change (str_drop 0 h) with h.
    change 4 with (2 + 2). rewrite <- (str_drop_drop 2 2 h).
    by rewrite (str_take_drop 2 (str_drop 2 h)), str_take_drop.
  - rewrite !length_str_take, !length_str_drop. lia.
  - rewrite length_str_take, length_str_drop. lia.
  - rewrite length_str_take, length_str_drop. lia.
Qed.

Lemma shard_key_witness :
  (2 ≤ length Sim.buildId
   ∧ String.length (seg1 Sim.buildId) = 2 ∧ String.length (seg2 Sim.buildId) = 2)%nat.
Proof.
  split; [vm_compute; lia|].
  apply (shard_key {| SimpleHttpArchive.base := BaseArchive.init (Sim.spec "http" None None None None);
                      SimpleHttpArchive.url := "http://cache" |} Sim.buildId).
  vm_compute. lia.
Defined.

Example shard_key_example :
  CustomArchive._makeUrl Sim.buildId = "aa/bb/ccdd000102030405060708090a0b.tgz".
Proof. reflexivity. Qed.

(** ** The capability policy *)

Lemma do_want_use self calls :
  BaseArchive.useDownload (foldl do_want self calls) = BaseArchive.useDownload self
  ∧ BaseArchive.useUpload (foldl do_want self calls) = BaseArchive.useUpload self.
Proof.
  revert self. induction calls as [|c calls IH]; intros self; simpl; [done|].
  destruct (IH (do_want self c)) as [-> ->]. by destruct c.
Qed.

Lemma do_want_flags self calls :
  BaseArchive.wantDownloadFlag (foldl do_want self calls)
    = foldl (λ acc c, match c with WantDownload e => e | WantUpload _ => acc end)
        (BaseArchive.wantDownloadFlag self) calls
  ∧ BaseArchive.wantUploadFlag (foldl do_want self calls)
    = foldl (λ acc c, match c with WantUpload e => e | WantDownload _ => acc end)
        (BaseArchive.wantUploadFlag self) calls.
Proof.
  revert self. induction calls as [|c calls IH]; intros self; simpl; [done|].
  destruct (IH (do_want self c)) as [-> ->]. by destruct c.
Qed.

Lemma last_upload_true calls : last_upload calls = true → WantUpload true ∈ calls.
Proof.
  unfold last_upload. induction calls as [|c calls IH] using rev_ind; [done|].
  rewrite foldl_app. simpl. destruct c as [e|e].
  - intros Hl. apply elem_of_app. left. by apply IH.
  - intros ->. apply elem_of_app. right. left.
Qed.

Lemma last_download_true calls : last_download calls = true → WantDownload true ∈ calls.
Proof.
  unfold last_download. induction calls as [|c calls IH] using rev_ind; [done|].
  rewrite foldl_app. simpl. destruct c as [e|e].
  - intros ->. apply elem_of_app. right. left.
  - intros Hl. apply elem_of_app. left. by apply IH.
Qed.

Lemma base_capability spec calls :
  BaseArchive.canUpload (foldl do_want (BaseArchive.init spec) calls)
    = allowed "upload" spec && last_upload calls
  ∧ BaseArchive.canDownload (foldl do_want (BaseArchive.init spec) calls)
    = allowed "download" spec && last_download calls.
Proof.
  unfold BaseArchive.canUpload, BaseArchive.canDownload.
  destruct (do_want_use (BaseArchive.init spec) calls) as [-> ->].
  destruct (do_want_flags (BaseArchive.init spec) calls) as [-> ->].
  split; apply andb_comm.
Qed.

Lemma want_calls_Dummy calls : foldl do_want_archive Dummy calls = Dummy.
Proof. induction calls as [|[e|e] calls IH]; simpl; done. Qed.

Lemma want_calls_Local b p calls :
  foldl do_want_archive (Local {| LocalArchive.base := b; LocalArchive.basePath := p |}) calls
  = Local {| LocalArchive.base := foldl do_want b calls; LocalArchive.basePath := p |}.
Proof.
  revert b. induction calls as [|[e|e] calls IH]; intros b; simpl; [done|apply IH|apply IH].
Qed.

Lemma want_calls_Http b u calls :
  foldl do_want_archive
    (Http {| SimpleHttpArchive.base := b; SimpleHttpArchive.url := u |}) calls
  = Http {| SimpleHttpArchive.base := foldl do_want b calls; SimpleHttpArchive.url := u |}.
Proof.
  revert b. induction calls as [|[e|e] calls IH]; intros b; simpl; [done|apply IH|apply IH].
Qed.

Lemma want_calls_Custom b d u wl calls :
  foldl do_want_archive
    (Custom {| CustomArchive.base := b; CustomArchive.downloadCmd := d;
               CustomArchive.uploadCmd := u; CustomArchive.whiteList := wl |}) calls
  = Custom {| CustomArchive.base := foldl do_want b calls; CustomArchive.downloadCmd := d;
              CustomArchive.uploadCmd := u; CustomArchive.whiteList := wl |}.
Proof.
  revert b. induction calls as [|[e|e] calls IH]; intros b; simpl; [done|apply IH|apply IH].
Qed.

Lemma built_capability `{Platform} recipes spec a calls :
  getSingleArchiver recipes spec = Ok a →
  canUpload (foldl do_want_archive a calls)
    = allowed "upload" spec && last_upload calls && class_allows_upload spec
  ∧ canDownload (foldl do_want_archive a calls)
    = allowed "download" spec && last_download calls && class_allows_download spec.
Proof.
  destruct (base_capability spec calls) as [Hu Hd].
  unfold getSingleArchiver, class_allows_upload, class_allows_download,
    LocalArchive.init, SimpleHttpArchive.init, CustomArchive.init.
  repeat case_bool_decide; repeat case_match; intros; simplify_eq;
    rewrite ?want_calls_Local, ?want_calls_Http, ?want_calls_Custom, ?want_calls_Dummy;
    simpl;
    unfold LocalArchive.canUpload, LocalArchive.canDownload,
      SimpleHttpArchive.canUpload, SimpleHttpArchive.canDownload,
      CustomArchive.canUpload, CustomArchive.canDownload, DummyArchive.canUpload,
      DummyArchive.canDownload;
    simpl; rewrite ?Hu, ?Hd, ?andb_true_r, ?andb_false_r; try done; try congruence;
    repeat case_bool_decide; try contradiction; rewrite ?andb_true_r, ?andb_false_r; done.
Qed.

(** C8, as the code has it.  A [BaseArchive] built from a specification
    allows an operation when the [flags] of the specification name it, and
    allows both when there are no [flags].  After any calls of the mutators,
    [canUpload] of [BaseArchive] is "upload allowed" and the argument of the
    last [wantUpload], which counts as false when there was no such call;
    the same holds for download.  So a capability only holds after its
    mutator was called with true, and right after construction every back
    end the factory builds can do neither.  [LocalArchive] and
    [SimpleHttpArchive] answer with the two predicates of [BaseArchive] as
    they are.  For a back end of any class that the factory builds from the
    specification, the capability after any calls of the mutators is
    "allowed and wanted" together with what the class asks for: nothing for
    the file and HTTP back ends, the command for the external-command back
    end, while the back end [none] never can. *)
Theorem capability_policy `{Platform} (spec : ArchiveSpec) (calls : list want_call) :
  let self := foldl do_want (BaseArchive.init spec) calls in
  BaseArchive.canUpload self = allowed "upload" spec && last_upload calls
  ∧ BaseArchive.canDownload self = allowed "download" spec && last_download calls
  ∧ BaseArchive.wantUploadFlag (BaseArchive.init spec) = false
  ∧ BaseArchive.wantDownloadFlag (BaseArchive.init spec) = false
  ∧ (spec_flags spec = None → allowed "upload" spec = true ∧ allowed "download" spec = true)
  ∧ (BaseArchive.canUpload self = true → WantUpload true ∈ calls)
  ∧ (BaseArchive.canDownload self = true → WantDownload true ∈ calls)
  ∧ (∀ recipes a, getSingleArchiver recipes spec = Ok a →
       canUpload a = false ∧ canDownload a = false)
  ∧ (∀ (l : LocalArchive.t) (h : SimpleHttpArchive.t),
       canUpload (Local l) = BaseArchive.canUpload (LocalArchive.base l)
       ∧ canDownload (Local l) = BaseArchive.canDownload (LocalArchive.base l)
       ∧ canUpload (Http h) = BaseArchive.canUpload (SimpleHttpArchive.base h)
       ∧ canDownload (Http h) = BaseArchive.canDownload (SimpleHttpArchive.base h))
  ∧ (∀ recipes a, getSingleArchiver recipes spec = Ok a →
       canUpload (foldl do_want_archive a calls)
         = allowed "upload" spec && last_upload calls && class_allows_upload spec
       ∧ canDownload (foldl do_want_archive a calls)
         = allowed "download" spec && last_download calls && class_allows_download spec).
Proof.
  intros self. unfold BaseArchive.canUpload, BaseArchive.canDownload, self.
  destruct (do_want_use (BaseArchive.init spec) calls) as [-> ->].
  destruct (do_want_flags (BaseArchive.init spec) calls) as [-> ->].
  fold (last_upload calls). fold (last_download calls).
  split; [apply andb_comm|]. split; [apply andb_comm|].
  split; [done|]. split; [done|]. split; [|split; [|split; [|split; [|split]]]].
  - unfold allowed. by intros ->.
  - intros [Hlast _]%andb_true_iff. by apply last_upload_true.
  - intros [Hlast _]%andb_true_iff. by apply last_download_true.
  - intros recipes a. unfold getSingleArchiver, LocalArchive.init, SimpleHttpArchive.init.
    repeat case_bool_decide; repeat case_match; intros; simplify_eq; done.
  - done.
  - intros recipes a. apply built_capability.
Qed.

Lemma capability_policy_witness :
  (spec_flags (Sim.spec "file" (Some "/archive") None None None) = None
   ∧ allowed "upload" (Sim.spec "file" (Some "/archive") None None None) = true
   ∧ allowed "download" (Sim.spec "file" (Some "/archive") None None None) = true)
  ∧ (getSingleArchiver (H := Sim.platform)
       {| envWhiteList := ∅; archiveSpec := OneSpec spec_download_only |} spec_download_only
     = Ok (Custom (CustomArchive.init spec_download_only ∅))
     ∧ canUpload (foldl do_want_archive (Custom (CustomArchive.init spec_download_only ∅))
                    [WantUpload true; WantDownload true]) = false
     ∧ canDownload (foldl do_want_archive (Custom (CustomArchive.init spec_download_only ∅))
                      [WantUpload true; WantDownload true]) = true).
Proof.
  split.
  - split; [reflexivity|].
    destruct (capability_policy (H := Sim.platform)
                (Sim.spec "file" (Some "/archive") None None None) [])
      as (_ & _ & _ & _ & Hdefault & _).
    apply Hdefault. reflexivity.
  - split; [reflexivity|].
    destruct (capability_policy (H := Sim.platform) spec_download_only
                [WantUpload true; WantDownload true])
      as (_ & _ & _ & _ & _ & _ & _ & _ & _ & Hbuilt).
    exact (Hbuilt {| envWhiteList := ∅; archiveSpec := OneSpec spec_download_only |}
             (Custom (CustomArchive.init spec_download_only ∅)) eq_refl).
Defined.

(** C8 as stated fails for the external-command back end: built from a
    specification without an upload command, with the default flags and
    after [wantUpload(True)], upload is allowed and wanted and yet
    [canUpload] is false. *)
Lemma shell_without_command_cannot_upload :
  getSingleArchiver (H := Sim.platform)
    {| envWhiteList := ∅; archiveSpec := OneSpec spec_download_only |} spec_download_only
  = Ok (Custom (CustomArchive.init spec_download_only ∅))
  ∧ allowed "upload" spec_download_only = true
  ∧ BaseArchive.wantUploadFlag
      (CustomArchive.base
         (CustomArchive.wantUpload (CustomArchive.init spec_download_only ∅) true)) = true
  ∧ canUpload (wantUpload (Custom (CustomArchive.init spec_download_only ∅)) true) = false
  ∧ canUpload (wantUpload (Custom (CustomArchive.init spec_download_only ∅)) true)
    ≠ allowed "upload" spec_download_only && true.
Proof. repeat split; try reflexivity. discriminate. Qed.

(** C5, as the code has it.  The external-command back end can upload
    exactly when the base capability holds and an upload command is
    configured, whatever its text, and likewise for download.  Building the
    back end never fails: the factory answers with the object and the
    commands are taken from the specification as they are, so a missing
    command only disables its direction. *)
Theorem command_presence `{Platform} (self : CustomArchive.t)
    (recipes : Recipes) (spec : ArchiveSpec) :
  (CustomArchive.canUpload self = true
     ↔ BaseArchive.canUpload (CustomArchive.base self) = true
       ∧ is_Some (CustomArchive.uploadCmd self))
  ∧ (CustomArchive.canDownload self = true
     ↔ BaseArchive.canDownload (CustomArchive.base self) = true
       ∧ is_Some (CustomArchive.downloadCmd self))
  ∧ (CustomArchive.uploadCmd self = None → CustomArchive.canUpload self = false)
  ∧ (CustomArchive.downloadCmd self = None → CustomArchive.canDownload self = false)
  ∧ (spec_backend spec = Some "shell" →
       ∃ a, getSingleArchiver recipes spec = Ok (Custom a)
            ∧ CustomArchive.uploadCmd a = spec_upload spec
            ∧ CustomArchive.downloadCmd a = spec_download spec).
Proof.
  unfold CustomArchive.canUpload, CustomArchive.canDownload.
  split; [|split; [|split; [|split]]].
  - rewrite andb_true_iff, bool_decide_eq_true, <- not_eq_None_Some. done.
  - rewrite andb_true_iff, bool_decide_eq_true, <- not_eq_None_Some. done.
  - intros ->. apply andb_false_r.
  - intros ->. apply andb_false_r.
  - intros Hb. unfold getSingleArchiver. rewrite Hb. simpl. eauto.
Qed.

Lemma command_presence_witness :
  CustomArchive.uploadCmd (CustomArchive.init (Sim.spec "shell" None None None None) ∅) = None
  ∧ CustomArchive.canUpload
      (CustomArchive.wantUpload
         (CustomArchive.init (Sim.spec "shell" None None None None) ∅) true) = false.
Proof.
  split; [reflexivity|].
  destruct (command_presence (H := Sim.platform)
              (CustomArchive.wantUpload
                 (CustomArchive.init (Sim.spec "shell" None None None None) ∅) true)
              {| envWhiteList := ∅;
                 archiveSpec := OneSpec (Sim.spec "shell" None None None None) |}
              (Sim.spec "shell" None None None None))
    as (_ & _ & Hnone & _).
  apply Hnone. reflexivity.
Defined.

(** C5 as stated fails: with the empty string for a command the back end can
    upload. *)
Lemma empty_command_can_upload :
  CustomArchive.canUpload empty_upload_command = true
  ∧ CustomArchive.uploadCmd empty_upload_command = Some ""
  ∧ ¬ (CustomArchive.canUpload empty_upload_command = true →
       ∃ c, CustomArchive.uploadCmd empty_upload_command = Some c ∧ c ≠ "").
Proof.
  split; [reflexivity|]. split; [reflexivity|].
  intros Hclaim. destruct (Hclaim eq_refl) as (c & Hc & Hne).
  apply Hne. by injection Hc as <-.
Qed.

(** ** Script emission *)

(** C1, what the code does.  Five of the six emitters answer the empty
    string exactly when their capability is off; [LocalArchive.upload]
    answers it exactly when the capability is on. *)
Theorem LocalArchive_upload_inverted `{Platform}
    (l : LocalArchive.t) (h : SimpleHttpArchive.t) (c : CustomArchive.t)
    (buildIdFile tgzFile : string) :
  (LocalArchive.upload l buildIdFile tgzFile = "" ↔ LocalArchive.canUpload l = true)
  ∧ (LocalArchive.download l buildIdFile tgzFile = "" ↔ LocalArchive.canDownload l = false)
  ∧ (SimpleHttpArchive.upload h buildIdFile tgzFile = ""
       ↔ SimpleHttpArchive.canUpload h = false)
  ∧ (SimpleHttpArchive.download h buildIdFile tgzFile = ""
       ↔ SimpleHttpArchive.canDownload h = false)
  ∧ (CustomArchive.upload c buildIdFile tgzFile = "" ↔ CustomArchive.canUpload c = false)
  ∧ (CustomArchive.download c buildIdFile tgzFile = ""
       ↔ CustomArchive.canDownload c = false)
  ∧ DummyArchive.upload buildIdFile tgzFile = ""
  ∧ DummyArchive.download buildIdFile tgzFile = "".
Proof.
  unfold LocalArchive.upload, LocalArchive.download, SimpleHttpArchive.upload,
    SimpleHttpArchive.download, CustomArchive.upload, CustomArchive.download.
  repeat split; try done;
    match goal with
    | |- context [if negb ?b then _ else _] => destruct b
    | |- context [if ?b then _ else _] => destruct b
    end;
    simpl; try done; intros Hnl; by apply nl_app_nonempty in Hnl.
Qed.

(** The input at which [LocalArchive.upload] departs from its siblings: a
    file back end with default flags that was asked to upload. *)
Example LocalArchive_upload_enabled_is_empty :
  let self := LocalArchive.wantUpload
                {| LocalArchive.base := BaseArchive.init (Sim.spec "file" (Some "/a") None None None);
                   LocalArchive.basePath := "/a" |} true in
  LocalArchive.canUpload self = true
  ∧ LocalArchive.upload (H := Sim.platform) self "bid" "result.tgz" = "".
Proof. split; reflexivity. Qed.

(** ** The composite back end *)

(** Induction over archives that reaches the members of a composite. *)
Lemma archive_nested_ind (P : archive → Prop) :
  P Dummy →
  (∀ a, P (Local a)) →
  (∀ a, P (Http a)) →
  (∀ a, P (Custom a)) →
  (∀ archives, Forall P archives → P (Multi archives)) →
  ∀ a, P a.
Proof.
  intros HD HL HH HC HM. fix IH 1.
  intros [|a|a|a|archives]; [exact HD|apply HL|apply HH|apply HC|].
  apply HM. induction archives as [|m archives IHl]; constructor.
  - apply IH.
  - exact IHl.
Qed.

Lemma existsb_and_l {A} (e : bool) (f : A → bool) (l : list A) :
  existsb (λ m, e && f m) l = e && existsb f l.
Proof.
  induction l as [|m l IH]; simpl; [by rewrite andb_false_r|].
  rewrite IH. by destruct e.
Qed.

Lemma existsb_fmap {A B} (f : B → bool) (g : A → B) (l : list A) :
  existsb f (map g l) = existsb (λ x, f (g x)) l.
Proof. induction l as [|x l IH]; simpl; [done|]. by rewrite IH. Qed.

Lemma existsb_Forall_ext {A} (f g : A → bool) (l : list A) :
  Forall (λ m, f m = g m) l → existsb f l = existsb g l.
Proof. induction 1 as [|m l Hm _ IH]; simpl; [done|]. by rewrite Hm, IH. Qed.

Lemma canDownload_wantDownload (a : archive) (e : bool) :
  canDownload (wantDownload a e) = e && allowedDownload a.
Proof.
  induction a as [|a|a|a|archives IH] using archive_nested_ind; simpl.
  - by rewrite andb_false_r.
  - done.
  - done.
  - unfold CustomArchive.canDownload, BaseArchive.canDownload. simpl.
    symmetry. apply andb_assoc.
  - unfold MultiArchive.canDownload, MultiArchive.wantDownload.
    rewrite existsb_fmap, <- existsb_and_l. by apply existsb_Forall_ext.
Qed.

Lemma canUpload_wantUpload (a : archive) (e : bool) :
  canUpload (wantUpload a e) = e && allowedUpload a.
Proof.
  induction a as [|a|a|a|archives IH] using archive_nested_ind; simpl.
  - by rewrite andb_false_r.
  - done.
  - done.
  - unfold CustomArchive.canUpload, BaseArchive.canUpload. simpl.
    symmetry. apply andb_assoc.
  - unfold MultiArchive.canUpload, MultiArchive.wantUpload.
    rewrite existsb_fmap, <- existsb_and_l. by apply existsb_Forall_ext.
Qed.

Lemma wantDownload_flag (m : archive) (e : bool) (b : BaseArchive.t) :
  base_of (wantDownload m e) = Some b → BaseArchive.wantDownloadFlag b = e.
Proof. destruct m; simpl; intros [= <-]; done. Qed.

Lemma wantUpload_flag (m : archive) (e : bool) (b : BaseArchive.t) :
  base_of (wantUpload m e) = Some b → BaseArchive.wantUploadFlag b = e.
Proof. destruct m; simpl; intros [= <-]; done. Qed.

(** C10.  [wantDownload] of a composite calls [wantDownload] with the same
    flag on every member, in order.  Afterwards the wanted-download flag of
    every member that has one is the flag, and the composite can download
    when for some member the flag holds together with what that member needs
    besides.  The same for upload. *)
Theorem composite_want (archives : list archive) (e : bool) :
  (wantDownload (Multi archives) e = Multi ((λ m, wantDownload m e) <$> archives)
   ∧ (∀ m b, m ∈ (λ m, wantDownload m e) <$> archives →
        base_of m = Some b → BaseArchive.wantDownloadFlag b = e)
   ∧ canDownload (wantDownload (Multi archives) e)
     = existsb (λ m, e && allowedDownload m) archives)
  ∧ (wantUpload (Multi archives) e = Multi ((λ m, wantUpload m e) <$> archives)
     ∧ (∀ m b, m ∈ (λ m, wantUpload m e) <$> archives →
          base_of m = Some b → BaseArchive.wantUploadFlag b = e)
     ∧ canUpload (wantUpload (Multi archives) e)
       = existsb (λ m, e && allowedUpload m) archives).
Proof.
  split; (split; [done|split]).
  - intros m b (m0 & -> & _)%list_elem_of_fmap. apply wantDownload_flag.
  - rewrite canDownload_wantDownload. simpl. symmetry. apply existsb_and_l.
  - intros m b (m0 & -> & _)%list_elem_of_fmap. apply wantUpload_flag.
  - rewrite canUpload_wantUpload. simpl. symmetry. apply existsb_and_l.
Qed.

Lemma composite_want_witness :
  Local (LocalArchive.wantDownload
           {| LocalArchive.base := BaseArchive.init (Sim.spec "file" (Some "/a") None None None);
              LocalArchive.basePath := "/a" |} true)
    ∈ (λ m, wantDownload m true) <$>
        [Dummy;
         Local {| LocalArchive.base := BaseArchive.init (Sim.spec "file" (Some "/a") None None None);
                  LocalArchive.basePath := "/a" |}]
  ∧ BaseArchive.wantDownloadFlag
      (BaseArchive.wantDownload
         (BaseArchive.init (Sim.spec "file" (Some "/a") None None None)) true) = true.
Proof.
  split; [simpl; right; left|].
  destruct (composite_want
              [Dummy;
               Local {| LocalArchive.base :=
                          BaseArchive.init (Sim.spec "file" (Some "/a") None None None);
                        LocalArchive.basePath := "/a" |}] true)
    as [(_ & Hflag & _) _].
  eapply Hflag; [simpl; right; left|reflexivity].
Defined.

Section Download.
Context `{Platform}.
Variable buildId : list byte.
Variable path : string.

Lemma downloadPackage_cons m rest w :
  downloadPackage (Multi (m :: rest)) buildId path w
  = if canDownload m then
      match downloadPackage m buildId path w with
      | (Ok true, w') => (Ok true, w')
      | (Ok false, w') => downloadPackage (Multi rest) buildId path w'
      | (Raise e, w') => (Raise e, w')
      end
    else downloadPackage (Multi rest) buildId path w.
Proof.
  simpl. unfold MultiArchive.downloadPackage. simpl.
  destruct (canDownload m); simpl; [|done].
  unfold mbind, M_bind.
  destruct (downloadPackage m buildId path w) as [[[]|e] w']; done.
Qed.

Lemma all_miss_false archives w w' :
  all_miss buildId path archives w w' ↔ downloadPackage (Multi archives) buildId path w = (Ok false, w').
Proof.
  split.
  - induction 1 as [w|m rest w w' Hcan _ IH|m rest w w1 w' Hcan Hm _ IH].
    + done.
    + by rewrite downloadPackage_cons, Hcan.
    + by rewrite downloadPackage_cons, Hcan, Hm.
  - revert w. induction archives as [|m rest IH]; intros w.
    + intros [= <-]. constructor.
    + rewrite downloadPackage_cons. destruct (canDownload m) eqn:Hcan.
      * destruct (downloadPackage m buildId path w) as [[[]|e] w1] eqn:Hm; try done.
        intros Hrest. eapply all_miss_ask; eauto.
      * intros Hrest. apply all_miss_skip; auto.
Qed.

Lemma downloadPackage_first_hit before m after w w1 w2 :
  all_miss buildId path before w w1 →
  canDownload m = true →
  downloadPackage m buildId path w1 = (Ok true, w2) →
  downloadPackage (Multi (before ++ m :: after)) buildId path w = (Ok true, w2).
Proof.
  intros Hmiss Hcan Hhit.
  induction Hmiss as [w|m' rest w w' Hcan' _ IH|m' rest w w1 w' Hcan' Hm' _ IH]; simpl app.
  - by rewrite downloadPackage_cons, Hcan, Hhit.
  - rewrite downloadPackage_cons, Hcan'. by apply IH.
  - rewrite downloadPackage_cons, Hcan', Hm'. by apply IH.
Qed.

End Download.

(** C7.  [downloadPackage] of a composite goes through the members in list
    order: a member that cannot download is passed over, a member that
    answers true ends the call with true and with the world that member
    left, whatever members follow, and the call answers false exactly when
    every member that can download answered false.  With a first member that
    cannot download and a second that succeeds the composite does what the
    second member does. *)
Theorem composite_download `{Platform} (buildId : list byte) (path : string) :
  (∀ m rest w,
     downloadPackage (Multi (m :: rest)) buildId path w
     = if canDownload m then
         match downloadPackage m buildId path w with
         | (Ok true, w') => (Ok true, w')
         | (Ok false, w') => downloadPackage (Multi rest) buildId path w'
         | (Raise e, w') => (Raise e, w')
         end
       else downloadPackage (Multi rest) buildId path w)
  ∧ (∀ before m after w w1 w2,
       all_miss buildId path before w w1 →
       canDownload m = true →
       downloadPackage m buildId path w1 = (Ok true, w2) →
       downloadPackage (Multi (before ++ m :: after)) buildId path w = (Ok true, w2))
  ∧ (∀ archives w w',
       all_miss buildId path archives w w'
       ↔ downloadPackage (Multi archives) buildId path w = (Ok false, w'))
  ∧ (∀ m1 m2 rest w w',
       canDownload m1 = false →
       canDownload m2 = true →
       downloadPackage m2 buildId path w = (Ok true, w') →
       downloadPackage (Multi (m1 :: m2 :: rest)) buildId path w
       = downloadPackage m2 buildId path w).
Proof.
  split; [apply downloadPackage_cons|].
  split; [apply downloadPackage_first_hit|].
  split; [apply all_miss_false|].
  intros m1 m2 rest w w' Hcan1 Hcan2 Hhit.
  by rewrite !downloadPackage_cons, Hcan1, Hcan2, Hhit.
Qed.

Lemma composite_download_witness :
  canDownload (Local sim_local) = false
  ∧ canDownload (Local (LocalArchive.wantDownload sim_local true)) = true
  ∧ downloadPackage (H := Sim.platform)
      (Multi [Local sim_local; Local (LocalArchive.wantDownload sim_local true); Dummy])
      Sim.buildId "/out" sim_stored
    = downloadPackage (H := Sim.platform)
        (Local (LocalArchive.wantDownload sim_local true)) Sim.buildId "/out" sim_stored.
Proof.
  split; [reflexivity|]. split; [reflexivity|].
  destruct (composite_download (H := Sim.platform) Sim.buildId "/out") as (_ & _ & _ & Hsecond).
  eapply Hsecond; [reflexivity|reflexivity|vm_compute; reflexivity].
Defined.

(** ** The file back end *)

Section LocalUpload.
Context `{Platform}.

Lemma uploadPackage_skips self buildId path w :
  LocalArchive.canUpload self = true →
  os_path_isfile (LocalArchive.packageResultFile self buildId) (os w) = true →
  LocalArchive.uploadPackage self buildId path w
  = (Ok (), {| environ := environ w; stdout := stdout w ++ skipped path;
               spawned := spawned w; os := os w |}).
Proof.
  intros Hcan Hfile. unfold LocalArchive.uploadPackage. rewrite Hcan. simpl.
  unfold mbind, M_bind, query. by rewrite Hfile.
Qed.

Lemma uploadPackage_leaves_file self buildId path w w1 :
  LocalArchive.canUpload self = true →
  LocalArchive.uploadPackage self buildId path w = (Ok (), w1) →
  os_path_isfile (LocalArchive.packageResultFile self buildId) (os w1) = true.
Proof.
  intros Hcan. unfold LocalArchive.uploadPackage. rewrite Hcan. simpl.
  unfold mbind, M_bind, query, print, print_end, sys, mret, M_ret. simpl.
  destruct (os_path_isfile _ (os w)) eqn:Hfile; simpl.
  - by intros [= <-].
  - destruct (os_path_isdir _ (os w)); simpl.
    + destruct (tar_write _ path (os w)) as [[[]|e] s1] eqn:Hwrite; intros [= <-].
      simpl. by eapply tar_write_isfile.
    + destruct (os_makedirs _ (os w)) as [[[]|e] s0]; simpl; [|done].
      destruct (tar_write _ path s0) as [[[]|e] s1] eqn:Hwrite; intros [= <-].
      simpl. by eapply tar_write_isfile.
Qed.

End LocalUpload.

(** C9.  With upload enabled, an upload for a build identifier whose file is
    already in the archive prints the "skipped" line and returns, and
    nothing outside the standard output changes.  So when one upload has
    returned, a second upload of the same identifier returns as well and
    leaves the operating system, and with it the stored file, as the first
    upload left it. *)
Theorem local_upload_idempotent `{Platform}
    (self : LocalArchive.t) (buildId : list byte) (path : string) (w : World) :
  LocalArchive.canUpload self = true →
  (os_path_isfile (LocalArchive.packageResultFile self buildId) (os w) = true →
     LocalArchive.uploadPackage self buildId path w
     = (Ok (), {| environ := environ w; stdout := stdout w ++ skipped path;
                  spawned := spawned w; os := os w |}))
  ∧ (∀ w1,
       LocalArchive.uploadPackage self buildId path w = (Ok (), w1) →
       ∃ w2,
         LocalArchive.uploadPackage self buildId path w1 = (Ok (), w2)
         ∧ os w2 = os w1
         ∧ stdout w2 = stdout w1 ++ skipped path).
Proof.
  intros Hcan. split; [by apply uploadPackage_skips|].
  intros w1 Hfirst. eexists. split.
  - apply uploadPackage_skips; [done|]. by eapply uploadPackage_leaves_file.
  - done.
Qed.

Lemma local_upload_idempotent_witness :
  LocalArchive.canUpload (LocalArchive.wantUpload sim_local true) = true
  ∧ ∃ w1 w2,
      LocalArchive.uploadPackage (H := Sim.platform)
        (LocalArchive.wantUpload sim_local true) Sim.buildId "/work" sim_empty = (Ok (), w1)
      ∧ LocalArchive.uploadPackage (H := Sim.platform)
          (LocalArchive.wantUpload sim_local true) Sim.buildId "/work" w1 = (Ok (), w2)
      ∧ os w2 = os w1.
Proof.
  split; [reflexivity|].
  destruct (local_upload_idempotent (H := Sim.platform)
              (LocalArchive.wantUpload sim_local true) Sim.buildId "/work" sim_empty eq_refl)
    as [_ Hsecond].
  eexists. destruct (Hsecond _ eq_refl) as (w2 & Hw2 & Hos & _).
  exists w2. split; [reflexivity|]. split; [exact Hw2|exact Hos].
Defined.

(** ** The HTTP back end *)

Section HttpDownload.
Context `{Platform}.

Lemma downloadPackage_URLError self buildId path w e s1 s2 :
  SimpleHttpArchive.canDownload self = true →
  urlretrieve (SimpleHttpArchive._makeUrl self buildId) (os w) = (Raise e, s1) →
  isinstance_URLError e = true →
  urlcleanup s1 = (Ok (), s2) →
  SimpleHttpArchive.downloadPackage self buildId path w
  = (Ok false,
     {| environ := environ w;
        stdout := stdout (announced path w) ++ colorize (exn_text e) "33" ++ nl;
        spawned := spawned w; os := s2 |}).
Proof.
  intros Hcan Hget Hurl Hclean. unfold SimpleHttpArchive.downloadPackage.
  rewrite Hcan. simpl.
  unfold try_finally, try_except, mbind, M_bind, sys, print, print_end. simpl.
  rewrite Hget, Hurl. simpl. by rewrite Hclean.
Qed.

Lemma downloadPackage_OSError self buildId path w localFilename s1 e w2 s3 :
  SimpleHttpArchive.canDownload self = true →
  urlretrieve (SimpleHttpArchive._makeUrl self buildId) (os w) = (Ok localFilename, s1) →
  unpack localFilename path
    {| environ := environ w; stdout := stdout (announced path w);
       spawned := spawned w; os := s1 |} = (Raise e, w2) →
  isinstance_URLError e = false →
  isinstance_OSError e = true →
  urlcleanup (os w2) = (Ok (), s3) →
  SimpleHttpArchive.downloadPackage self buildId path w
  = (Raise (BuildError ("Error: " ++ exn_text e)),
     {| environ := environ w2; stdout := stdout w2; spawned := spawned w2; os := s3 |}).
Proof.
  intros Hcan Hget Hunpack Hurl Hos Hclean. unfold SimpleHttpArchive.downloadPackage.
  rewrite Hcan. simpl. revert Hunpack. unfold unpack.
  unfold try_finally, try_except, mbind, M_bind, sys, print, print_end, raise. simpl.
  rewrite Hget. simpl.
  destruct (removePath path s1) as [[[]|e1] s1a]; simpl.
  - destruct (os_makedirs path s1a) as [[[]|e2] s1b]; simpl.
    + destruct (tar_extractall localFilename path s1b) as [[[]|e3] s1c]; simpl; [done|].
      intros [= -> <-]. simpl in Hclean. rewrite Hurl, Hos. simpl. by rewrite Hclean.
    + intros [= -> <-]. simpl in Hclean. rewrite Hurl, Hos. simpl. by rewrite Hclean.
  - intros [= -> <-]. simpl in Hclean. rewrite Hurl, Hos. simpl. by rewrite Hclean.
Qed.

Lemma downloadPackage_transfer_error self buildId path w e s1 s2 :
  SimpleHttpArchive.canDownload self = true →
  urlretrieve (SimpleHttpArchive._makeUrl self buildId) (os w) = (Raise e, s1) →
  isinstance_URLError e = false →
  urlcleanup s1 = (Ok (), s2) →
  (SimpleHttpArchive.downloadPackage self buildId path w).1
  = if isinstance_OSError e then Raise (BuildError ("Error: " ++ exn_text e)) else Raise e.
Proof.
  intros Hcan Hget Hurl Hclean. unfold SimpleHttpArchive.downloadPackage.
  rewrite Hcan. simpl.
  unfold try_finally, try_except, mbind, M_bind, sys, print, print_end, raise. simpl.
  rewrite Hget, Hurl. simpl. destruct (isinstance_OSError e); simpl; by rewrite Hclean.
Qed.

End HttpDownload.

(** C2, as the code has it.  With download enabled, any [URLError] of the
    transfer, an [HTTPError] of whatever status among them (404 and 500
    alike), is printed and the call answers false.  An [OSError] that is not
    a [URLError] becomes a [BuildError] wherever in the [try] it is raised:
    by the transfer itself or while the archive is unpacked.  An exception
    of the transfer outside [OSError] leaves the call as it is.  All of this
    holds when the cleanup of the transfer succeeds. *)
Theorem http_download_outcomes `{Platform}
    (self : SimpleHttpArchive.t) (buildId : list byte) (path : string) (w : World) :
  SimpleHttpArchive.canDownload self = true →
  (∀ e s1 s2,
     urlretrieve (SimpleHttpArchive._makeUrl self buildId) (os w) = (Raise e, s1) →
     isinstance_URLError e = true →
     urlcleanup s1 = (Ok (), s2) →
     SimpleHttpArchive.downloadPackage self buildId path w
     = (Ok false,
        {| environ := environ w;
           stdout := stdout (announced path w) ++ colorize (exn_text e) "33" ++ nl;
           spawned := spawned w; os := s2 |}))
  ∧ (∀ code reason s1 s2,
       urlretrieve (SimpleHttpArchive._makeUrl self buildId) (os w)
         = (Raise (HTTPError code reason), s1) →
       urlcleanup s1 = (Ok (), s2) →
       (SimpleHttpArchive.downloadPackage self buildId path w).1 = Ok false)
  ∧ (∀ localFilename s1 e w2 s3,
       urlretrieve (SimpleHttpArchive._makeUrl self buildId) (os w) = (Ok localFilename, s1) →
       unpack localFilename path
         {| environ := environ w; stdout := stdout (announced path w);
            spawned := spawned w; os := s1 |} = (Raise e, w2) →
       isinstance_URLError e = false →
       isinstance_OSError e = true →
       urlcleanup (os w2) = (Ok (), s3) →
       (SimpleHttpArchive.downloadPackage self buildId path w).1
       = Raise (BuildError ("Error: " ++ exn_text e)))
  ∧ (∀ e s1 s2,
       urlretrieve (SimpleHttpArchive._makeUrl self buildId) (os w) = (Raise e, s1) →
       isinstance_URLError e = false →
       urlcleanup s1 = (Ok (), s2) →
       (SimpleHttpArchive.downloadPackage self buildId path w).1
       = if isinstance_OSError e
         then Raise (BuildError ("Error: " ++ exn_text e))
         else Raise e).
Proof.
  intros Hcan. split; [|split; [|split]].
  - intros e s1 s2. by apply downloadPackage_URLError.
  - intros code reason s1 s2 Hget Hclean.
    by erewrite downloadPackage_URLError.
  - intros localFilename s1 e w2 s3 Hget Hunpack Hurl Hos Hclean.
    by erewrite downloadPackage_OSError.
  - intros e s1 s2. by apply downloadPackage_transfer_error.
Qed.

Lemma http_download_outcomes_witness :
  SimpleHttpArchive.canDownload sim_http = true
  ∧ (SimpleHttpArchive.downloadPackage (H := Sim.platform)
       sim_http Sim.buildId "/out" (sim_answers 404)).1 = Ok false.
Proof.
  split; [reflexivity|].
  destruct (http_download_outcomes (H := Sim.platform)
              sim_http Sim.buildId "/out" (sim_answers 404) eq_refl) as (_ & Hhttp & _).
  eapply Hhttp; reflexivity.
Defined.

(** C2 as stated fails for status 500: the call answers false and raises
    nothing. *)
Lemma http_500_returns_false :
  (SimpleHttpArchive.downloadPackage (H := Sim.platform)
     sim_http Sim.buildId "/out" (sim_answers 500)).1 = Ok false
  ∧ ¬ (∃ e, (SimpleHttpArchive.downloadPackage (H := Sim.platform)
               sim_http Sim.buildId "/out" (sim_answers 500)).1 = Raise e).
Proof.
  split; [vm_compute; reflexivity|]. intros [e He]. vm_compute in He. discriminate.
Qed.

(** ** The external-command back end *)

Section Command.
Context `{Platform}.

Lemma child_env_lookup self E tmpName buildId k :
  CustomArchive.child_env self E tmpName buildId !! k
  = if decide (k = "BOB_REMOTE_ARTIFACT") then Some (CustomArchive._makeUrl buildId)
    else if decide (k = "BOB_LOCAL_ARTIFACT") then Some tmpName
    else if decide (k ∈ CustomArchive.whiteList self) then E !! k
    else None.
Proof.
  unfold CustomArchive.child_env.
  destruct (decide (k = "BOB_REMOTE_ARTIFACT")) as [->|Hr]; [by rewrite lookup_insert_eq|].
  rewrite lookup_insert_ne by done.
  destruct (decide (k = "BOB_LOCAL_ARTIFACT")) as [->|Hl]; [by rewrite lookup_insert_eq|].
  rewrite lookup_insert_ne by done.
  destruct (decide (k ∈ CustomArchive.whiteList self)) as [Hin|Hout].
  - destruct (E !! k) as [v|] eqn:Hk.
    + by apply map_lookup_filter_Some.
    + apply map_lookup_filter_None. left. done.
  - apply map_lookup_filter_None. right. intros v _. done.
Qed.

(** One step of a method body: split on the outcome of the next call,
    innermost first. *)
Ltac split_outcome :=
  match goal with
  | |- context [match ?x with _ => _ end] =>
      lazymatch x with
      | context [match _ with _ => _ end] => fail
      | _ => destruct x eqn:?
      end
  end.

(** A child found after the call was there before or was started with one
    environment [env]. *)
Ltac old_or_new :=
  simpl; intros Hin; rewrite ?elem_of_app, ?list_elem_of_singleton in Hin;
  lazymatch type of Hin with
  | _ ∨ _ => destruct Hin as [Hin| ->]
  | _ => idtac
  end; eauto 10.

Lemma uploadPackage_spawns self buildId path w sp :
  sp ∈ spawned (CustomArchive.uploadPackage self buildId path w).2 →
  sp ∈ spawned w
  ∨ ∃ fd tmpName s,
      mkstemp (os w) = (Ok (fd, tmpName), s)
      ∧ spawn_env sp = CustomArchive.child_env self (environ w) tmpName buildId.
Proof.
  unfold CustomArchive.uploadPackage, CustomArchive.bash.
  unfold try_finally, try_except, mbind, M_bind, mret, M_ret, sys, call, print,
    print_end, raise, os_environ.
  simpl. repeat (split_outcome; simpl); simplify_eq/=; old_or_new.
Qed.

Lemma downloadPackage_spawns self buildId path w sp :
  sp ∈ spawned (CustomArchive.downloadPackage self buildId path w).2 →
  sp ∈ spawned w
  ∨ ∃ fd tmpName s,
      mkstemp (os w) = (Ok (fd, tmpName), s)
      ∧ spawn_env sp = CustomArchive.child_env self (environ w) tmpName buildId.
Proof.
  unfold CustomArchive.downloadPackage, CustomArchive.bash.
  unfold try_finally, try_except, mbind, M_bind, mret, M_ret, sys, call, print,
    print_end, raise, os_environ.
  simpl. repeat (split_outcome; simpl); simplify_eq/=; old_or_new.
Qed.



End Command.

(** C4.  A child started by [uploadPackage] or [downloadPackage] of the
    external-command back end gets this environment: [BOB_REMOTE_ARTIFACT]
    is the key of the build identifier without any prefix,
    [BOB_LOCAL_ARTIFACT] is the name of the temporary file, every other name
    on the white list has the value it has in the environment of the
    process, if it has one, and no other name is defined.  So a variable
    that is not on the white list does not reach the child. *)
Theorem child_environment `{Platform}
    (self : CustomArchive.t) (buildId : list byte) (path : string) (w : World) (sp : Spawn) :
  sp ∈ spawned (CustomArchive.uploadPackage self buildId path w).2
  ∨ sp ∈ spawned (CustomArchive.downloadPackage self buildId path w).2 →
  sp ∈ spawned w
  ∨ ∃ fd tmpName s,
      mkstemp (os w) = (Ok (fd, tmpName), s)
      ∧ (∀ k, spawn_env sp !! k
              = if decide (k = "BOB_REMOTE_ARTIFACT")
                then Some (seg1 buildId ++ "/" ++ seg2 buildId ++ "/" ++ seg3 buildId ++ ".tgz")
                else if decide (k = "BOB_LOCAL_ARTIFACT") then Some tmpName
                else if decide (k ∈ CustomArchive.whiteList self) then environ w !! k
                else None)
      ∧ (∀ k, k ∉ CustomArchive.whiteList self →
              k ≠ "BOB_LOCAL_ARTIFACT" → k ≠ "BOB_REMOTE_ARTIFACT" →
              spawn_env sp !! k = None).
Proof.
  intros Hin.
  assert (sp ∈ spawned w
          ∨ ∃ fd tmpName s,
              mkstemp (os w) = (Ok (fd, tmpName), s)
              ∧ spawn_env sp = CustomArchive.child_env self (environ w) tmpName buildId)
    as [Hold|(fd & tmpName & s & Hmk & Henv)].
  { destruct Hin as [Hin|Hin];
      [by apply uploadPackage_spawns in Hin|by apply downloadPackage_spawns in Hin]. }
  - by left.
  - right. exists fd, tmpName, s. split; [done|]. rewrite Henv. split.
    + intros k. apply child_env_lookup.
    + intros k Hout Hl Hr. rewrite child_env_lookup.
      by rewrite !decide_False by done.
Qed.

Lemma child_environment_witness :
  sim_child ∈ spawned (CustomArchive.uploadPackage (H := Sim.platform)
                         sim_shell Sim.buildId "/work" (sim_secret 0)).2
  ∧ spawn_env sim_child !! "SECRET" = None.
Proof.
  assert (sim_child ∈ spawned (CustomArchive.uploadPackage (H := Sim.platform)
                                 sim_shell Sim.buildId "/work" (sim_secret 0)).2) as Hin.
  { vm_compute. left. }
  split; [exact Hin|].
  destruct (child_environment (H := Sim.platform) sim_shell Sim.buildId "/work"
              (sim_secret 0) sim_child (or_introl Hin))
    as [Hold|(fd & tmpName & s & _ & _ & Hsecret)].
  - by apply elem_of_nil in Hold.
  - apply Hsecret; [|done|done].
    intros Hw. change ("SECRET" ∈ ({["PATH"]} : gset string)) in Hw.
    apply elem_of_singleton in Hw. discriminate.
Defined.



(** * Further properties of the module *)

(** ** A back end that cannot act does nothing *)

Section Transfers.
Context `{Platform}.
Variable buildId : list byte.
Variable path : string.

Lemma uploadPackage_cons m rest w :
  uploadPackage (Multi (m :: rest)) buildId path w
  = if canUpload m then
      match uploadPackage m buildId path w with
      | (Ok _, w') => uploadPackage (Multi rest) buildId path w'
      | (Raise e, w') => (Raise e, w')
      end
    else uploadPackage (Multi rest) buildId path w.
Proof.
  simpl. unfold MultiArchive.uploadPackage. simpl.
  destruct (canUpload m); simpl; [|done].
  unfold mbind, M_bind.
  destruct (uploadPackage m buildId path w) as [[[]|e] w']; done.
Qed.

Lemma uploadPackage_app l1 l2 w :
  uploadPackage (Multi (l1 ++ l2)) buildId path w
  = match uploadPackage (Multi l1) buildId path w with
    | (Ok _, w') => uploadPackage (Multi l2) buildId path w'
    | (Raise e, w') => (Raise e, w')
    end.
Proof.
  revert w. induction l1 as [|m l1 IH]; intros w; [done|].
  simpl app. rewrite !uploadPackage_cons. destruct (canUpload m); [|apply IH].
  destruct (uploadPackage m buildId path w) as [[[]|e] w']; [apply IH|done].
Qed.

Lemma downloadPackage_app l1 l2 w :
  downloadPackage (Multi (l1 ++ l2)) buildId path w
  = match downloadPackage (Multi l1) buildId path w with
    | (Ok true, w') => (Ok true, w')
    | (Ok false, w') => downloadPackage (Multi l2) buildId path w'
    | (Raise e, w') => (Raise e, w')
    end.
Proof.
  revert w. induction l1 as [|m l1 IH]; intros w; [done|].
  simpl app. rewrite !downloadPackage_cons. destruct (canDownload m); [|apply IH].
  destruct (downloadPackage m buildId path w) as [[[]|e] w']; [done|apply IH|done].
Qed.

Lemma uploadPackage_disabled a w :
  canUpload a = false → uploadPackage a buildId path w = (Ok (), w).
Proof.
  destruct a as [|a|a|a|archives]; simpl.
  - done.
  - intros Hcan. unfold LocalArchive.uploadPackage. by rewrite Hcan.
  - intros Hcan. unfold SimpleHttpArchive.uploadPackage. by rewrite Hcan.
  - intros Hcan. unfold CustomArchive.uploadPackage. by rewrite Hcan.
  - unfold MultiArchive.canUpload. revert w.
    induction archives as [|m rest IH]; intros w; [done|].
    simpl. intros [Hm Hrest]%orb_false_iff.
    change (uploadPackage (Multi (m :: rest)) buildId path w = (Ok (), w)).
    rewrite uploadPackage_cons, Hm. by apply IH.
Qed.

Lemma downloadPackage_disabled a w :
  canDownload a = false → downloadPackage a buildId path w = (Ok false, w).
Proof.
  destruct a as [|a|a|a|archives]; simpl.
  - done.
  - intros Hcan. unfold LocalArchive.downloadPackage. by rewrite Hcan.
  - intros Hcan. unfold SimpleHttpArchive.downloadPackage. by rewrite Hcan.
  - intros Hcan. unfold CustomArchive.downloadPackage. by rewrite Hcan.
  - unfold MultiArchive.canDownload. revert w.
    induction archives as [|m rest IH]; intros w; [done|].
    simpl. intros [Hm Hrest]%orb_false_iff.
    change (downloadPackage (Multi (m :: rest)) buildId path w = (Ok false, w)).
    rewrite downloadPackage_cons, Hm. by apply IH.
Qed.

End Transfers.

(** X1.  An archive of any class, composites and nested composites
    included, that cannot upload returns from [uploadPackage] without
    printing, without starting a child and without touching the operating
    system; one that cannot download answers false from [downloadPackage]
    in the same way. *)
Theorem disabled_transfer_is_noop `{Platform}
    (a : archive) (buildId : list byte) (path : string) (w : World) :
  (canUpload a = false → uploadPackage a buildId path w = (Ok (), w))
  ∧ (canDownload a = false → downloadPackage a buildId path w = (Ok false, w)).
Proof. split; [apply uploadPackage_disabled|apply downloadPackage_disabled]. Qed.

Lemma disabled_transfer_is_noop_witness :
  canUpload (Multi [Local sim_local; Custom sim_shell_fresh; Dummy]) = false
  ∧ uploadPackage (H := Sim.platform) (Multi [Local sim_local; Custom sim_shell_fresh; Dummy])
      Sim.buildId "/work" sim_empty = (Ok (), sim_empty)
  ∧ canDownload (Multi [Local sim_local; Dummy]) = false
  ∧ downloadPackage (H := Sim.platform) (Multi [Local sim_local; Dummy])
      Sim.buildId "/work" sim_stored = (Ok false, sim_stored).
Proof.
  split; [reflexivity|].
  split; [apply (disabled_transfer_is_noop (H := Sim.platform)); reflexivity|].
  split; [reflexivity|].
  apply (disabled_transfer_is_noop (H := Sim.platform)); reflexivity.
Defined.

(** ** Composites: fan-out, members that cannot act, nesting *)

(** X2.  [uploadPackage] of a composite calls every member that can upload,
    in list order, each in the world the one before left.  Uploading to a
    concatenation of two lists is uploading to the first and then to the
    second.  The first member that raises ends the call with its exception
    and its world: no later member is called. *)
Theorem composite_upload `{Platform} (buildId : list byte) (path : string) :
  (∀ w, uploadPackage (Multi []) buildId path w = (Ok (), w))
  ∧ (∀ m rest w,
       uploadPackage (Multi (m :: rest)) buildId path w
       = if canUpload m then
           match uploadPackage m buildId path w with
           | (Ok _, w') => uploadPackage (Multi rest) buildId path w'
           | (Raise e, w') => (Raise e, w')
           end
         else uploadPackage (Multi rest) buildId path w)
  ∧ (∀ l1 l2 w,
       uploadPackage (Multi (l1 ++ l2)) buildId path w
       = match uploadPackage (Multi l1) buildId path w with
         | (Ok _, w') => uploadPackage (Multi l2) buildId path w'
         | (Raise e, w') => (Raise e, w')
         end)
  ∧ (∀ before m after w w1 e w2,
       uploadPackage (Multi before) buildId path w = (Ok (), w1) →
       canUpload m = true →
       uploadPackage m buildId path w1 = (Raise e, w2) →
       uploadPackage (Multi (before ++ m :: after)) buildId path w = (Raise e, w2)).
Proof.
  split; [done|]. split; [apply uploadPackage_cons|]. split; [apply uploadPackage_app|].
  intros before m after w w1 e w2 Hbefore Hcan Hm.
  by rewrite uploadPackage_app, Hbefore, uploadPackage_cons, Hcan, Hm.
Qed.

Lemma composite_upload_witness :
  uploadPackage (H := Sim.platform)
    (Multi ([Local (LocalArchive.wantUpload sim_local true)]
            ++ Custom sim_shell :: [Local (LocalArchive.wantUpload sim_local true)]))
    Sim.buildId "/work" (sim_secret 3)
  = uploadPackage (H := Sim.platform) (Custom sim_shell) Sim.buildId "/work"
      (uploadPackage (H := Sim.platform)
         (Multi [Local (LocalArchive.wantUpload sim_local true)])
         Sim.buildId "/work" (sim_secret 3)).2.
Proof.
  destruct (composite_upload (H := Sim.platform) Sim.buildId "/work") as (_ & _ & _ & Hfail).
  erewrite Hfail; [|vm_compute; reflexivity|reflexivity|vm_compute; reflexivity].
  vm_compute. reflexivity.
Defined.

Section Scripts.
Context {A : Type}.
Variable can : A → bool.
Variable f : A → string.

Lemma fragments_app l1 l2 :
  MultiArchive.fragments can f (l1 ++ l2)
  = (MultiArchive.fragments can f l1 ++ MultiArchive.fragments can f l2)%list.
Proof.
  induction l1 as [|m l1 IH]; simpl; [done|]. destruct (can m); simpl; by rewrite IH.
Qed.

Lemma fragments_nil l :
  existsb can l = false ↔ MultiArchive.fragments can f l = [].
Proof.
  induction l as [|m l IH]; simpl; [done|].
  destruct (can m); simpl; [split; intros; discriminate|done].
Qed.

End Scripts.

Lemma string_app_assoc (a b c : string) : (a ++ b) ++ c = a ++ b ++ c.
Proof.
  induction a as [|x a IH]; [done|].
  change (String x ((a ++ b) ++ c) = String x (a ++ b ++ c)). by rewrite IH.
Qed.

Lemma join_cons2 sep x y l : join sep (x :: y :: l) = x ++ sep ++ join sep (y :: l).
Proof. done. Qed.

Lemma join_join sep l1 l2 :
  l1 ≠ [] → join sep (join sep l1 :: l2) = join sep (l1 ++ l2).
Proof.
  induction l1 as [|x [|y l1] IH]; intros Hne; [done|done|].
  simpl app. rewrite (join_cons2 sep x y (l1 ++ l2)).
  change (y :: l1 ++ l2)%list with ((y :: l1) ++ l2)%list. rewrite <- IH by done.
  rewrite (join_cons2 sep x y l1).
  destruct l2 as [|z l2]; [done|].
  rewrite !join_cons2. by rewrite !string_app_assoc.
Qed.

Section Members.
Context `{Platform}.
Variable buildId : list byte.
Variable path : string.
Variables buildIdFile tgzFile : string.

Lemma canDownload_Multi_app l1 l2 :
  canDownload (Multi (l1 ++ l2)) = canDownload (Multi l1) || canDownload (Multi l2).
Proof. simpl. unfold MultiArchive.canDownload. apply existsb_app. Qed.

Lemma canUpload_Multi_app l1 l2 :
  canUpload (Multi (l1 ++ l2)) = canUpload (Multi l1) || canUpload (Multi l2).
Proof. simpl. unfold MultiArchive.canUpload. apply existsb_app. Qed.

Lemma download_Multi_app l1 l2 :
  download (Multi (l1 ++ l2)) buildIdFile tgzFile
  = join nl (MultiArchive.fragments canDownload (λ i, download i buildIdFile tgzFile) l1
             ++ MultiArchive.fragments canDownload (λ i, download i buildIdFile tgzFile) l2).
Proof. simpl. unfold MultiArchive.download. by rewrite fragments_app. Qed.

Lemma upload_Multi_app l1 l2 :
  upload (Multi (l1 ++ l2)) buildIdFile tgzFile
  = join nl (MultiArchive.fragments canUpload (λ i, upload i buildIdFile tgzFile) l1
             ++ MultiArchive.fragments canUpload (λ i, upload i buildIdFile tgzFile) l2).
Proof. simpl. unfold MultiArchive.upload. by rewrite fragments_app. Qed.

Lemma download_side_skips l1 m l2 w :
  canDownload m = false →
  canDownload (Multi (l1 ++ m :: l2)) = canDownload (Multi (l1 ++ l2))
  ∧ downloadPackage (Multi (l1 ++ m :: l2)) buildId path w
    = downloadPackage (Multi (l1 ++ l2)) buildId path w
  ∧ download (Multi (l1 ++ m :: l2)) buildIdFile tgzFile
    = download (Multi (l1 ++ l2)) buildIdFile tgzFile.
Proof.
  intros Hm. split; [|split].
  - rewrite !canDownload_Multi_app. simpl. unfold MultiArchive.canDownload. simpl.
    by rewrite Hm.
  - rewrite !downloadPackage_app.
    destruct (downloadPackage (Multi l1) buildId path w) as [[[]|e] w']; try done.
    by rewrite downloadPackage_cons, Hm.
  - rewrite !download_Multi_app. simpl. by rewrite Hm.
Qed.

Lemma upload_side_skips l1 m l2 w :
  canUpload m = false →
  canUpload (Multi (l1 ++ m :: l2)) = canUpload (Multi (l1 ++ l2))
  ∧ uploadPackage (Multi (l1 ++ m :: l2)) buildId path w
    = uploadPackage (Multi (l1 ++ l2)) buildId path w
  ∧ upload (Multi (l1 ++ m :: l2)) buildIdFile tgzFile
    = upload (Multi (l1 ++ l2)) buildIdFile tgzFile.
Proof.
  intros Hm. split; [|split].
  - rewrite !canUpload_Multi_app. simpl. unfold MultiArchive.canUpload. simpl.
    by rewrite Hm.
  - rewrite !uploadPackage_app.
    destruct (uploadPackage (Multi l1) buildId path w) as [[[]|e] w']; try done.
    by rewrite uploadPackage_cons, Hm.
  - rewrite !upload_Multi_app. simpl. by rewrite Hm.
Qed.

End Members.

(** X3.  A member that cannot download is invisible in a composite: with or
    without it, at any position, the composite has the same [canDownload],
    the same [downloadPackage] and the same download script.  The same
    holds for upload.  [DummyArchive], which can do neither whatever was
    wanted of it, is such a member for both directions. *)
Theorem incapable_member_is_invisible `{Platform}
    (l1 : list archive) (m : archive) (l2 : list archive)
    (buildId : list byte) (path buildIdFile tgzFile : string) (w : World) :
  (canDownload m = false →
     canDownload (Multi (l1 ++ m :: l2)) = canDownload (Multi (l1 ++ l2))
     ∧ downloadPackage (Multi (l1 ++ m :: l2)) buildId path w
       = downloadPackage (Multi (l1 ++ l2)) buildId path w
     ∧ download (Multi (l1 ++ m :: l2)) buildIdFile tgzFile
       = download (Multi (l1 ++ l2)) buildIdFile tgzFile)
  ∧ (canUpload m = false →
       canUpload (Multi (l1 ++ m :: l2)) = canUpload (Multi (l1 ++ l2))
       ∧ uploadPackage (Multi (l1 ++ m :: l2)) buildId path w
         = uploadPackage (Multi (l1 ++ l2)) buildId path w
       ∧ upload (Multi (l1 ++ m :: l2)) buildIdFile tgzFile
         = upload (Multi (l1 ++ l2)) buildIdFile tgzFile)
  ∧ (∀ e e', canDownload (wantUpload (wantDownload Dummy e) e') = false
             ∧ canUpload (wantUpload (wantDownload Dummy e) e') = false).
Proof.
  split; [apply download_side_skips|]. split; [apply upload_side_skips|]. done.
Qed.

Lemma incapable_member_is_invisible_witness :
  canDownload (wantDownload Dummy true) = false
  ∧ downloadPackage (H := Sim.platform)
      (Multi ([Local sim_local] ++ wantDownload Dummy true
                :: [Local (LocalArchive.wantDownload sim_local true)]))
      Sim.buildId "/out" sim_stored
    = downloadPackage (H := Sim.platform)
        (Multi ([Local sim_local] ++ [Local (LocalArchive.wantDownload sim_local true)]))
        Sim.buildId "/out" sim_stored.
Proof.
  split; [reflexivity|].
  destruct (incapable_member_is_invisible (H := Sim.platform)
              [Local sim_local] (wantDownload Dummy true)
              [Local (LocalArchive.wantDownload sim_local true)]
              Sim.buildId "/out" "bid" "result.tgz" sim_stored) as [Hdown _].
  destruct (Hdown eq_refl) as (_ & Hsame & _). exact Hsame.
Defined.

Section Nesting.
Context `{Platform}.
Variable buildId : list byte.
Variable path : string.
Variables buildIdFile tgzFile : string.

Lemma downloadPackage_singleton a w :
  downloadPackage (Multi [a]) buildId path w = downloadPackage a buildId path w.
Proof.
  rewrite downloadPackage_cons. destruct (canDownload a) eqn:Hcan.
  - destruct (downloadPackage a buildId path w) as [[[]|e] w']; reflexivity.
  - rewrite (downloadPackage_disabled _ _ a) by done. reflexivity.
Qed.

Lemma uploadPackage_singleton a w :
  uploadPackage (Multi [a]) buildId path w = uploadPackage a buildId path w.
Proof.
  rewrite uploadPackage_cons. destruct (canUpload a) eqn:Hcan.
  - destruct (uploadPackage a buildId path w) as [[[]|e] w']; reflexivity.
  - rewrite (uploadPackage_disabled _ _ a) by done. reflexivity.
Qed.

Lemma download_nested inner rest :
  download (Multi (Multi inner :: rest)) buildIdFile tgzFile
  = download (Multi (inner ++ rest)) buildIdFile tgzFile.
Proof.
  rewrite download_Multi_app. simpl. unfold MultiArchive.download. simpl.
  unfold MultiArchive.download, MultiArchive.canDownload.
  destruct (existsb canDownload inner) eqn:Hcan.
  - apply join_join. intros Hnil. apply fragments_nil in Hnil. congruence.
  - apply (fragments_nil _ (λ i, download i buildIdFile tgzFile)) in Hcan. by rewrite Hcan.
Qed.

Lemma upload_nested inner rest :
  upload (Multi (Multi inner :: rest)) buildIdFile tgzFile
  = upload (Multi (inner ++ rest)) buildIdFile tgzFile.
Proof.
  rewrite upload_Multi_app. simpl. unfold MultiArchive.upload. simpl.
  unfold MultiArchive.upload, MultiArchive.canUpload.
  destruct (existsb canUpload inner) eqn:Hcan.
  - apply join_join. intros Hnil. apply fragments_nil in Hnil. congruence.
  - apply (fragments_nil _ (λ i, upload i buildIdFile tgzFile)) in Hcan. by rewrite Hcan.
Qed.

End Nesting.

Lemma join_cons_nonempty sep x t :
  t ≠ [] → join sep (x :: t) = x ++ sep ++ join sep t.
Proof. by destruct t. Qed.

Lemma join_join_middle sep pre l post :
  l ≠ [] → join sep (pre ++ join sep l :: post) = join sep (pre ++ l ++ post).
Proof.
  intros Hl. induction pre as [|x pre IH]; [rewrite !app_nil_l; by apply join_join|].
  simpl app. rewrite !join_cons_nonempty; [by rewrite IH| |].
  - intros Hnil. apply app_eq_nil in Hnil as [_ Hnil].
    apply app_eq_nil in Hnil as [Hnil _]. done.
  - intros Hnil. by apply app_eq_nil in Hnil as [_ Hnil].
Qed.

Section NestingAnywhere.
Context `{Platform}.
Variable buildId : list byte.
Variable path : string.
Variables buildIdFile tgzFile : string.

Lemma downloadPackage_nested_head inner rest w :
  downloadPackage (Multi (Multi inner :: rest)) buildId path w
  = downloadPackage (Multi (inner ++ rest)) buildId path w.
Proof.
  change (Multi inner :: rest) with ([Multi inner] ++ rest)%list.
  by rewrite !(downloadPackage_app _ _ _ rest), downloadPackage_singleton.
Qed.

Lemma uploadPackage_nested_head inner rest w :
  uploadPackage (Multi (Multi inner :: rest)) buildId path w
  = uploadPackage (Multi (inner ++ rest)) buildId path w.
Proof.
  change (Multi inner :: rest) with ([Multi inner] ++ rest)%list.
  by rewrite !(uploadPackage_app _ _ _ rest), uploadPackage_singleton.
Qed.

Lemma download_nested_anywhere l1 inner l2 :
  download (Multi (l1 ++ Multi inner :: l2)) buildIdFile tgzFile
  = download (Multi (l1 ++ inner ++ l2)) buildIdFile tgzFile.
Proof.
  rewrite !download_Multi_app, fragments_app. simpl.
  unfold MultiArchive.canDownload, MultiArchive.download.
  destruct (existsb canDownload inner) eqn:Hcan.
  - apply join_join_middle. intros Hnil. apply fragments_nil in Hnil. congruence.
  - apply (fragments_nil _ (λ i, download i buildIdFile tgzFile)) in Hcan. by rewrite Hcan.
Qed.

Lemma upload_nested_anywhere l1 inner l2 :
  upload (Multi (l1 ++ Multi inner :: l2)) buildIdFile tgzFile
  = upload (Multi (l1 ++ inner ++ l2)) buildIdFile tgzFile.
Proof.
  rewrite !upload_Multi_app, fragments_app. simpl.
  unfold MultiArchive.canUpload, MultiArchive.upload.
  destruct (existsb canUpload inner) eqn:Hcan.
  - apply join_join_middle. intros Hnil. apply fragments_nil in Hnil. congruence.
  - apply (fragments_nil _ (λ i, upload i buildIdFile tgzFile)) in Hcan. by rewrite Hcan.
Qed.

End NestingAnywhere.

(** X4.  A composite that is a member of a composite, at any position in
    the list, acts as if its members stood in its place: both capabilities,
    both transfers and both scripts of the outer composite are those of the
    flattened list. *)
Theorem nested_composite_flattens `{Platform}
    (l1 inner l2 : list archive)
    (buildId : list byte) (path buildIdFile tgzFile : string) (w : World) :
  canDownload (Multi (l1 ++ Multi inner :: l2)) = canDownload (Multi (l1 ++ inner ++ l2))
  ∧ canUpload (Multi (l1 ++ Multi inner :: l2)) = canUpload (Multi (l1 ++ inner ++ l2))
  ∧ downloadPackage (Multi (l1 ++ Multi inner :: l2)) buildId path w
    = downloadPackage (Multi (l1 ++ inner ++ l2)) buildId path w
  ∧ uploadPackage (Multi (l1 ++ Multi inner :: l2)) buildId path w
    = uploadPackage (Multi (l1 ++ inner ++ l2)) buildId path w
  ∧ download (Multi (l1 ++ Multi inner :: l2)) buildIdFile tgzFile
    = download (Multi (l1 ++ inner ++ l2)) buildIdFile tgzFile
  ∧ upload (Multi (l1 ++ Multi inner :: l2)) buildIdFile tgzFile
    = upload (Multi (l1 ++ inner ++ l2)) buildIdFile tgzFile.
Proof.
  split; [rewrite !canDownload_Multi_app; reflexivity|].
  split; [rewrite !canUpload_Multi_app; reflexivity|].
  split; [|split; [|split; [apply download_nested_anywhere|apply upload_nested_anywhere]]].
  - rewrite !(downloadPackage_app _ _ l1).
    destruct (downloadPackage (Multi l1) buildId path w) as [[[]|e] w']; try done.
    apply downloadPackage_nested_head.
  - rewrite !(uploadPackage_app _ _ l1).
    destruct (uploadPackage (Multi l1) buildId path w) as [[[]|e] w']; try done.
    apply uploadPackage_nested_head.
Qed.

(** ** Scripts of composites *)

Lemma join_nonempty sep l :
  Forall (λ x, x ≠ "") l → l ≠ [] → join sep l ≠ "".
Proof.
  intros Hall Hne. destruct Hall as [|x l Hx _]; [done|].
  destruct x as [|c x]; [done|]. by destruct l.
Qed.

Lemma fragments_nonempty {A} (can : A → bool) (f : A → string) l :
  Forall (λ m, f m = "" ↔ can m = false) l →
  Forall (λ x, x ≠ "") (MultiArchive.fragments can f l).
Proof.
  induction 1 as [|m l Hm _ IH]; simpl; [constructor|].
  destruct (can m) eqn:Hcan; [|done]. constructor; [|done].
  intros Hempty. apply Hm in Hempty. congruence.
Qed.

Lemma join_fragments_empty {A} (can : A → bool) (f : A → string) l :
  Forall (λ m, f m = "" ↔ can m = false) l →
  join nl (MultiArchive.fragments can f l) = "" ↔ existsb can l = false.
Proof.
  intros Hall. rewrite (fragments_nil can f). split.
  - intros Hjoin. destruct (MultiArchive.fragments can f l) as [|x F] eqn:HF; [done|].
    exfalso. revert Hjoin. apply join_nonempty; [|done].
    rewrite <- HF. by apply fragments_nonempty.
  - by intros ->.
Qed.

Lemma download_empty_iff `{Platform} a buildIdFile tgzFile :
  download a buildIdFile tgzFile = "" ↔ canDownload a = false.
Proof.
  induction a as [|a|a|a|archives IH] using archive_nested_ind; simpl.
  - done.
  - unfold LocalArchive.download. destruct (LocalArchive.canDownload a); simpl; [|done].
    split; [intros Hnl; by apply nl_app_nonempty in Hnl|done].
  - unfold SimpleHttpArchive.download.
    destruct (SimpleHttpArchive.canDownload a); simpl; [|done].
    split; [intros Hnl; by apply nl_app_nonempty in Hnl|done].
  - unfold CustomArchive.download. destruct (CustomArchive.canDownload a); simpl; [|done].
    split; [intros Hnl; by apply nl_app_nonempty in Hnl|done].
  - by apply join_fragments_empty.
Qed.

Lemma upload_empty_iff `{Platform} a buildIdFile tgzFile :
  local_free a = true →
  upload a buildIdFile tgzFile = "" ↔ canUpload a = false.
Proof.
  induction a as [|a|a|a|archives IH] using archive_nested_ind; simpl.
  - done.
  - done.
  - intros _. unfold SimpleHttpArchive.upload.
    destruct (SimpleHttpArchive.canUpload a); simpl; [|done].
    split; [intros Hnl; by apply nl_app_nonempty in Hnl|done].
  - intros _. unfold CustomArchive.upload. destruct (CustomArchive.canUpload a); simpl; [|done].
    split; [intros Hnl; by apply nl_app_nonempty in Hnl|done].
  - intros Hfree. apply join_fragments_empty.
    rewrite forallb_forall in Hfree.
    rewrite Forall_forall in IH. apply Forall_forall. intros m Hm.
    apply IH; [done|]. apply Hfree. by apply list_elem_of_In.
Qed.

(** X5.  For an archive of any class, composites of any depth included, the
    download script is the empty string exactly when the archive cannot
    download.  The upload script is the empty string exactly when the
    archive cannot upload provided no [LocalArchive] occurs in it. *)
Theorem script_is_empty_iff_incapable `{Platform}
    (a : archive) (buildIdFile tgzFile : string) :
  (download a buildIdFile tgzFile = "" ↔ canDownload a = false)
  ∧ (local_free a = true →
       (upload a buildIdFile tgzFile = "" ↔ canUpload a = false)).
Proof. split; [apply download_empty_iff|apply upload_empty_iff]. Qed.

Lemma script_is_empty_iff_incapable_witness :
  local_free (Multi [Dummy; Multi [Custom sim_shell; Http sim_http]]) = true
  ∧ upload (H := Sim.platform) (Multi [Dummy; Multi [Custom sim_shell; Http sim_http]])
      "bid" "result.tgz" ≠ "".
Proof.
  split; [reflexivity|].
  destruct (script_is_empty_iff_incapable (H := Sim.platform)
              (Multi [Dummy; Multi [Custom sim_shell; Http sim_http]]) "bid" "result.tgz")
    as [_ Hup].
  intros Hempty. apply (Hup eq_refl) in Hempty. discriminate Hempty.
Defined.

(** ** Uploading over HTTP *)

(** Split on the outcome of the innermost call a method body waits for. *)
Ltac case_outcome :=
  match goal with
  | |- context [match ?x with _ => _ end] =>
      lazymatch x with
      | context [match _ with _ => _ end] => fail
      | _ => destruct x eqn:?
      end
  end.

Ltac run_body :=
  unfold try_finally, try_except, mbind, M_bind, mret, M_ret, sys, call, query, print,
    print_end, raise, os_environ; simpl.

Section HttpUpload.
Context `{Platform}.
Variable self : SimpleHttpArchive.t.
Variable buildId : list byte.
Variable path : string.
Hypothesis Hcan : SimpleHttpArchive.canUpload self = true.

Lemma http_upload_present w s1 :
  urlopen "HEAD" (SimpleHttpArchive._makeUrl self buildId) None (os w) = (Ok (), s1) →
  SimpleHttpArchive.uploadPackage self buildId path w
  = (Ok (), with_os s1
              (printed ("   UPLOAD    skipped (" ++ path ++ " exists in archive)") w)).
Proof.
  intros Hhead. unfold SimpleHttpArchive.uploadPackage. rewrite Hcan. run_body.
  by rewrite Hhead.
Qed.

Lemma http_upload_head_error w code reason s1 :
  urlopen "HEAD" (SimpleHttpArchive._makeUrl self buildId) None (os w)
    = (Raise (HTTPError code reason), s1) →
  code ≠ 404%Z →
  SimpleHttpArchive.uploadPackage self buildId path w
  = (Raise (BuildError ("Error for HEAD on " ++ SimpleHttpArchive._makeUrl self buildId
                        ++ ": " ++ reason)),
     with_os s1 w).
Proof.
  intros Hhead Hcode. unfold SimpleHttpArchive.uploadPackage. rewrite Hcan. run_body.
  rewrite Hhead. simpl. by rewrite bool_decide_eq_true_2.
Qed.

Lemma http_upload_absent w reason s1 data s2 r s3 :
  urlopen "HEAD" (SimpleHttpArchive._makeUrl self buildId) None (os w)
    = (Raise (HTTPError 404 reason), s1) →
  tar_write_tmp path s1 = (Ok data, s2) →
  urlopen "PUT" (SimpleHttpArchive._makeUrl self buildId) (Some data) s2 = (r, s3) →
  SimpleHttpArchive.uploadPackage self buildId path w
  = (match r with
     | Ok _ => Ok ()
     | Raise e =>
         if isinstance_URLError e
         then Raise (BuildError ("Error uploading package: " ++ exn_text e))
         else Raise e
     end,
     with_os s3 (printed (colorize ("   UPLOAD    " ++ path) "32") w)).
Proof.
  intros Hhead Htar Hput. unfold SimpleHttpArchive.uploadPackage. rewrite Hcan. run_body.
  rewrite Hhead. simpl. rewrite Htar. simpl. rewrite Hput.
  destruct r as [[]|e]; simpl; [done|]. by destruct (isinstance_URLError e).
Qed.

Lemma http_upload_unreachable w reason s1 :
  urlopen "HEAD" (SimpleHttpArchive._makeUrl self buildId) None (os w)
    = (Raise (URLError reason), s1) →
  SimpleHttpArchive.uploadPackage self buildId path w
  = (Raise (BuildError ("Error uploading package: " ++ reason)), with_os s1 w).
Proof.
  intros Hhead. unfold SimpleHttpArchive.uploadPackage. rewrite Hcan. run_body.
  by rewrite Hhead.
Qed.

End HttpUpload.

Lemma http_upload_no_URLError `{Platform} self buildId path w e :
  (SimpleHttpArchive.uploadPackage self buildId path w).1 = Raise e →
  isinstance_URLError e = false.
Proof.
  unfold SimpleHttpArchive.uploadPackage. run_body.
  repeat (case_outcome; simpl); intros; simplify_eq/=; done.
Qed.

(** X6.  With upload enabled, [SimpleHttpArchive.uploadPackage] first asks
    with [HEAD].  When the server answers without error the package counts
    as present: the call prints the "skipped" line and sends nothing.  An
    error status other than 404 is a [BuildError] that names the URL.  On
    404 the archive is packed and sent with [PUT], and the call returns when
    the server accepts it. *)
Theorem http_upload_outcomes `{Platform}
    (self : SimpleHttpArchive.t) (buildId : list byte) (path : string) (w : World) :
  SimpleHttpArchive.canUpload self = true →
  (∀ s1,
     urlopen "HEAD" (SimpleHttpArchive._makeUrl self buildId) None (os w) = (Ok (), s1) →
     SimpleHttpArchive.uploadPackage self buildId path w
     = (Ok (), with_os s1
                 (printed ("   UPLOAD    skipped (" ++ path ++ " exists in archive)") w)))
  ∧ (∀ code reason s1,
       urlopen "HEAD" (SimpleHttpArchive._makeUrl self buildId) None (os w)
         = (Raise (HTTPError code reason), s1) →
       code ≠ 404%Z →
       SimpleHttpArchive.uploadPackage self buildId path w
       = (Raise (BuildError ("Error for HEAD on " ++ SimpleHttpArchive._makeUrl self buildId
                             ++ ": " ++ reason)),
          with_os s1 w))
  ∧ (∀ reason s1 data s2 s3,
       urlopen "HEAD" (SimpleHttpArchive._makeUrl self buildId) None (os w)
         = (Raise (HTTPError 404 reason), s1) →
       tar_write_tmp path s1 = (Ok data, s2) →
       urlopen "PUT" (SimpleHttpArchive._makeUrl self buildId) (Some data) s2 = (Ok (), s3) →
       SimpleHttpArchive.uploadPackage self buildId path w
       = (Ok (), with_os s3 (printed (colorize ("   UPLOAD    " ++ path) "32") w))).
Proof.
  intros Hcan. split; [|split].
  - intros s1. by apply http_upload_present.
  - intros code reason s1. by apply http_upload_head_error.
  - intros reason s1 data s2 s3 Hhead Htar Hput.
    by rewrite (http_upload_absent self buildId path Hcan w reason s1 data s2 _ s3 Hhead Htar Hput).
Qed.

Lemma http_upload_outcomes_witness :
  SimpleHttpArchive.canUpload (SimpleHttpArchive.wantUpload sim_http true) = true
  ∧ (SimpleHttpArchive.uploadPackage (H := Sim.platform)
       (SimpleHttpArchive.wantUpload sim_http true) Sim.buildId "/work" (sim_answers 200)).1
    = Ok ()
  ∧ (SimpleHttpArchive.uploadPackage (H := Sim.platform)
       (SimpleHttpArchive.wantUpload sim_http true) Sim.buildId "/work" (sim_answers 503)).1
    = Raise (BuildError
               "Error for HEAD on http://cache/aa/bb/ccdd000102030405060708090a0b.tgz: HTTP Error 503").
Proof.
  split; [reflexivity|]. split.
  - destruct (http_upload_outcomes (H := Sim.platform)
                (SimpleHttpArchive.wantUpload sim_http true) Sim.buildId "/work"
                (sim_answers 200) eq_refl) as [Hpresent _].
    by rewrite (Hpresent _ eq_refl).
  - destruct (http_upload_outcomes (H := Sim.platform)
                (SimpleHttpArchive.wantUpload sim_http true) Sim.buildId "/work"
                (sim_answers 503) eq_refl) as (_ & Hhead & _).
    erewrite Hhead; [reflexivity|vm_compute; reflexivity|discriminate].
Defined.

(** X7.  Every failure of the transfer leaves
    [SimpleHttpArchive.uploadPackage] as a [BuildError]: no [URLError], and
    so no [HTTPError], escapes the call, whatever the server and the
    operating system do.  A [URLError] of the [HEAD] request that is no
    [HTTPError], and any [URLError] of the [PUT] request, carries its reason
    into the message. *)
Theorem http_upload_wraps_transport_errors `{Platform}
    (self : SimpleHttpArchive.t) (buildId : list byte) (path : string) (w : World) :
  (∀ e, (SimpleHttpArchive.uploadPackage self buildId path w).1 = Raise e →
        isinstance_URLError e = false)
  ∧ (∀ reason s1,
       SimpleHttpArchive.canUpload self = true →
       urlopen "HEAD" (SimpleHttpArchive._makeUrl self buildId) None (os w)
         = (Raise (URLError reason), s1) →
       (SimpleHttpArchive.uploadPackage self buildId path w).1
       = Raise (BuildError ("Error uploading package: " ++ reason)))
  ∧ (∀ reason s1 data s2 e s3,
       SimpleHttpArchive.canUpload self = true →
       urlopen "HEAD" (SimpleHttpArchive._makeUrl self buildId) None (os w)
         = (Raise (HTTPError 404 reason), s1) →
       tar_write_tmp path s1 = (Ok data, s2) →
       urlopen "PUT" (SimpleHttpArchive._makeUrl self buildId) (Some data) s2
         = (Raise e, s3) →
       isinstance_URLError e = true →
       (SimpleHttpArchive.uploadPackage self buildId path w).1
       = Raise (BuildError ("Error uploading package: " ++ exn_text e))).
Proof.
  split; [|split].
  - intros e. apply http_upload_no_URLError.
  - intros reason s1 Hcan Hhead. by rewrite (http_upload_unreachable self buildId path Hcan w reason s1).
  - intros reason s1 data s2 e s3 Hcan Hhead Htar Hput Hurl.
    rewrite (http_upload_absent self buildId path Hcan w reason s1 data s2 _ s3 Hhead Htar Hput).
    simpl. by rewrite Hurl.
Qed.

Lemma http_upload_wraps_transport_errors_witness :
  SimpleHttpArchive.canUpload (SimpleHttpArchive.wantUpload sim_http true) = true
  ∧ (SimpleHttpArchive.uploadPackage (H := Sim.platform)
       (SimpleHttpArchive.wantUpload sim_http true) Sim.buildId "/work" (sim_answers 404)).1
    = Raise (BuildError "Error uploading package: HTTP Error 404")
  ∧ isinstance_URLError (BuildError "Error uploading package: HTTP Error 404") = false.
Proof.
  destruct (http_upload_wraps_transport_errors (H := Sim.platform)
              (SimpleHttpArchive.wantUpload sim_http true) Sim.buildId "/work"
              (sim_answers 404)) as (Hnone & _ & Hput).
  assert ((SimpleHttpArchive.uploadPackage (H := Sim.platform)
             (SimpleHttpArchive.wantUpload sim_http true) Sim.buildId "/work"
             (sim_answers 404)).1
          = Raise (BuildError "Error uploading package: HTTP Error 404")) as Hraise.
  { exact (Hput "HTTP Error 404" (os (sim_answers 404)) [] (os (sim_answers 404))
                 (HTTPError 404 "HTTP Error 404") (os (sim_answers 404))
                 eq_refl eq_refl eq_refl eq_refl eq_refl). }
  split; [reflexivity|]. split; [exact Hraise|]. exact (Hnone _ Hraise).
Defined.

(** ** Downloading from the file back end *)

Section LocalDownload.
Context `{Platform}.

Lemma local_download_body self buildId path w :
  LocalArchive.canDownload self = true →
  LocalArchive.downloadPackage self buildId path w
  = if os_path_isfile (LocalArchive.packageResultFile self buildId) (os w) then
      match unpack (LocalArchive.packageResultFile self buildId) path (announced path w) with
      | (Ok _, w') => (Ok true, printed (colorize "ok" "32") w')
      | (Raise e, w') => (Raise e, w')
      end
    else (Ok false, printed (colorize "not found" "33") (announced path w)).
Proof.
  intros Hcan. unfold LocalArchive.downloadPackage, unpack, announced, printed.
  rewrite Hcan. run_body.
  destruct (os_path_isfile _ (os w)); [|reflexivity].
  destruct (removePath path (os w)) as [[[]|e1] s1] eqn:H1; simpl; rewrite ?H1; simpl;
    [|reflexivity].
  destruct (os_makedirs path s1) as [[[]|e2] s2] eqn:H2; simpl; rewrite ?H2; simpl;
    [|reflexivity].
  destruct (tar_extractall _ path s2) as [[[]|e3] s3] eqn:H3; simpl; rewrite ?H3;
    reflexivity.
Qed.

End LocalDownload.

(** X8.  With download enabled, [LocalArchive.downloadPackage] of a package
    that is not in the archive prints "not found" and answers false; the
    operating system, the destination directory included, is as before.
    When the file is there the destination is removed, made anew and the
    archive extracted into it; the call answers true when all three
    succeed, and an exception of any of them leaves the call as it is, not
    as a [BuildError]. *)
Theorem local_download_outcomes `{Platform}
    (self : LocalArchive.t) (buildId : list byte) (path : string) (w : World) :
  LocalArchive.canDownload self = true →
  (os_path_isfile (LocalArchive.packageResultFile self buildId) (os w) = false →
     LocalArchive.downloadPackage self buildId path w
     = (Ok false, printed (colorize "not found" "33") (announced path w)))
  ∧ (∀ w',
       os_path_isfile (LocalArchive.packageResultFile self buildId) (os w) = true →
       unpack (LocalArchive.packageResultFile self buildId) path (announced path w)
         = (Ok (), w') →
       LocalArchive.downloadPackage self buildId path w
       = (Ok true, printed (colorize "ok" "32") w'))
  ∧ (∀ e w',
       os_path_isfile (LocalArchive.packageResultFile self buildId) (os w) = true →
       unpack (LocalArchive.packageResultFile self buildId) path (announced path w)
         = (Raise e, w') →
       LocalArchive.downloadPackage self buildId path w = (Raise e, w')).
Proof.
  intros Hcan. rewrite local_download_body by done. split; [|split].
  - by intros ->.
  - intros w' -> Hun. by rewrite Hun.
  - intros e w' -> Hun. by rewrite Hun.
Qed.

Lemma local_download_outcomes_witness :
  LocalArchive.canDownload (LocalArchive.wantDownload sim_local true) = true
  ∧ LocalArchive.downloadPackage (H := Sim.platform)
      (LocalArchive.wantDownload sim_local true) Sim.buildId "/out" sim_empty
    = (Ok false, printed (H := Sim.platform) "not found"
                   (announced (H := Sim.platform) "/out" sim_empty))
  ∧ (LocalArchive.downloadPackage (H := Sim.platform)
       (LocalArchive.wantDownload sim_local true) Sim.buildId "/out" sim_stored).1
    = Ok true.
Proof.
  split; [reflexivity|].
  destruct (local_download_outcomes (H := Sim.platform)
              (LocalArchive.wantDownload sim_local true) Sim.buildId "/out" sim_empty eq_refl)
    as [Hmiss _].
  destruct (local_download_outcomes (H := Sim.platform)
              (LocalArchive.wantDownload sim_local true) Sim.buildId "/out" sim_stored eq_refl)
    as (_ & Hhit & _).
  split; [exact (Hmiss eq_refl)|].
  erewrite Hhit; [reflexivity|reflexivity|vm_compute; reflexivity].
Defined.

(** X9.  What one file back end uploaded another one over the same
    directory finds: after [uploadPackage] has returned, [downloadPackage]
    of the same build identifier, in the world the upload left, does not
    report a miss.  It unpacks the stored file and answers true, or ends
    with the exception of the unpacking. *)
Theorem local_upload_then_download `{Platform}
    (up down : LocalArchive.t) (buildId : list byte) (src dst : string) (w w1 : World) :
  LocalArchive.basePath up = LocalArchive.basePath down →
  LocalArchive.canUpload up = true →
  LocalArchive.canDownload down = true →
  LocalArchive.uploadPackage up buildId src w = (Ok (), w1) →
  LocalArchive.downloadPackage down buildId dst w1
  = match unpack (LocalArchive.packageResultFile down buildId) dst (announced dst w1) with
    | (Ok _, w2) => (Ok true, printed (colorize "ok" "32") w2)
    | (Raise e, w2) => (Raise e, w2)
    end
  ∧ (LocalArchive.downloadPackage down buildId dst w1).1 ≠ Ok false.
Proof.
  intros Hbase Hup Hdown Hdone.
  assert (LocalArchive.packageResultFile down buildId
          = LocalArchive.packageResultFile up buildId) as Hfile.
  { unfold LocalArchive.packageResultFile, LocalArchive.packageResultPath. by rewrite Hbase. }
  rewrite local_download_body by done. rewrite Hfile.
  rewrite (uploadPackage_leaves_file up buildId src w w1 Hup Hdone).
  split; [done|].
  by destruct (unpack _ dst (announced dst w1)) as [[[]|e] w2].
Qed.

Lemma local_upload_then_download_witness :
  ∃ w1,
    LocalArchive.uploadPackage (H := Sim.platform)
      (LocalArchive.wantUpload sim_local true) Sim.buildId "/work" sim_empty = (Ok (), w1)
    ∧ (LocalArchive.downloadPackage (H := Sim.platform)
         (LocalArchive.wantDownload sim_local true) Sim.buildId "/out" w1).1 ≠ Ok false.
Proof.
  eexists. split; [reflexivity|].
  eapply (local_upload_then_download (H := Sim.platform)
            (LocalArchive.wantUpload sim_local true)
            (LocalArchive.wantDownload sim_local true)
            Sim.buildId "/work" "/out" sim_empty); reflexivity.
Defined.

(** ** The temporary file and the child of the external-command back end *)

Section CommandCleanup.
Context `{Platform}.

Ltac close_with_unlink :=
  match goal with
  | Hu : os_unlink _ ?s = _ |- _ =>
      exists s; rewrite Hu; simpl; split; [done|intros; simplify_eq; done]
  end.

Lemma custom_upload_unlinks self buildId path w fd tmpName s1 :
  CustomArchive.canUpload self = true →
  mkstemp (os w) = (Ok (fd, tmpName), s1) →
  ends_with_unlink tmpName (CustomArchive.uploadPackage self buildId path w).
Proof.
  intros Hcan Hmk. unfold ends_with_unlink, CustomArchive.uploadPackage, CustomArchive.bash.
  rewrite Hcan. run_body. rewrite Hmk. simpl.
  repeat (case_outcome; simpl); simplify_eq/=; close_with_unlink.
Qed.

Lemma custom_download_unlinks self buildId path w fd tmpName s1 :
  CustomArchive.canDownload self = true →
  mkstemp (os w) = (Ok (fd, tmpName), s1) →
  ends_with_unlink tmpName (CustomArchive.downloadPackage self buildId path w).
Proof.
  intros Hcan Hmk. unfold ends_with_unlink, CustomArchive.downloadPackage, CustomArchive.bash.
  rewrite Hcan. run_body. rewrite Hmk. simpl.
  repeat (case_outcome; simpl); simplify_eq/=; close_with_unlink.
Qed.

End CommandCleanup.

(** X10.  Once [mkstemp] has given the external-command back end its
    temporary file, the file is removed on every way out of [uploadPackage]
    and [downloadPackage]: the removal is the last thing the call does to
    the operating system, after a normal end and after an exception alike,
    and when the removal raises, that exception is the one the call ends
    with. *)
Theorem temporary_file_is_removed `{Platform}
    (self : CustomArchive.t) (buildId : list byte) (path : string) (w : World)
    (fd : Z) (tmpName : string) (s1 : OSState) :
  mkstemp (os w) = (Ok (fd, tmpName), s1) →
  (CustomArchive.canUpload self = true →
     ends_with_unlink tmpName (CustomArchive.uploadPackage self buildId path w))
  ∧ (CustomArchive.canDownload self = true →
       ends_with_unlink tmpName (CustomArchive.downloadPackage self buildId path w)).
Proof.
  intros Hmk. split; intros Hcan.
  - by eapply custom_upload_unlinks.
  - by eapply custom_download_unlinks.
Qed.

Lemma temporary_file_is_removed_witness :
  mkstemp (Platform := Sim.platform) (os (sim_secret 3))
    = (Ok (3%Z, "/tmp/tmpfile"), os (sim_secret 3))
  ∧ CustomArchive.canUpload sim_shell = true
  ∧ ends_with_unlink (H := Sim.platform) "/tmp/tmpfile"
      (CustomArchive.uploadPackage (H := Sim.platform) sim_shell Sim.buildId "/work"
         (sim_secret 3)).
Proof.
  split; [reflexivity|]. split; [reflexivity|].
  destruct (temporary_file_is_removed (H := Sim.platform) sim_shell Sim.buildId "/work"
              (sim_secret 3) 3 "/tmp/tmpfile" (os (sim_secret 3)) eq_refl) as [Hup _].
  exact (Hup eq_refl).
Defined.

Section Children.
Context `{Platform}.

Ltac same_or_one :=
  first [ by left
        | right; do 2 eexists; split; reflexivity ].

Lemma custom_upload_started self buildId path w :
  started (CustomArchive.uploadCmd self) w
    (CustomArchive.uploadPackage self buildId path w).2.
Proof.
  unfold started, CustomArchive.uploadPackage, CustomArchive.bash. run_body.
  repeat (case_outcome; simpl); simplify_eq/=; same_or_one.
Qed.

Lemma custom_download_started self buildId path w :
  started (CustomArchive.downloadCmd self) w
    (CustomArchive.downloadPackage self buildId path w).2.
Proof.
  unfold started, CustomArchive.downloadPackage, CustomArchive.bash. run_body.
  repeat (case_outcome; simpl); simplify_eq/=; same_or_one.
Qed.

Lemma local_spawns_nothing self buildId path w :
  spawned (LocalArchive.uploadPackage self buildId path w).2 = spawned w
  ∧ spawned (LocalArchive.downloadPackage self buildId path w).2 = spawned w.
Proof.
  unfold LocalArchive.uploadPackage, LocalArchive.downloadPackage. run_body.
  split; repeat (case_outcome; simpl); simplify_eq/=; done.
Qed.

Lemma http_spawns_nothing self buildId path w :
  spawned (SimpleHttpArchive.uploadPackage self buildId path w).2 = spawned w
  ∧ spawned (SimpleHttpArchive.downloadPackage self buildId path w).2 = spawned w.
Proof.
  unfold SimpleHttpArchive.uploadPackage, SimpleHttpArchive.downloadPackage. run_body.
  split; repeat (case_outcome; simpl); simplify_eq/=; done.
Qed.

End Children.

(** X11.  A transfer of the external-command back end starts no child or
    exactly one, and that one is [/bin/bash -ec] with the configured command
    of the direction, upload or download, run in [/tmp].  The file and HTTP
    back ends never start a child. *)
Theorem children_of_a_transfer `{Platform}
    (c : CustomArchive.t) (l : LocalArchive.t) (h : SimpleHttpArchive.t)
    (buildId : list byte) (path : string) (w : World) :
  started (CustomArchive.uploadCmd c) w (CustomArchive.uploadPackage c buildId path w).2
  ∧ started (CustomArchive.downloadCmd c) w (CustomArchive.downloadPackage c buildId path w).2
  ∧ spawned (LocalArchive.uploadPackage l buildId path w).2 = spawned w
  ∧ spawned (LocalArchive.downloadPackage l buildId path w).2 = spawned w
  ∧ spawned (SimpleHttpArchive.uploadPackage h buildId path w).2 = spawned w
  ∧ spawned (SimpleHttpArchive.downloadPackage h buildId path w).2 = spawned w.
Proof.
  split; [apply custom_upload_started|]. split; [apply custom_download_started|].
  split; [apply local_spawns_nothing|]. split; [apply local_spawns_nothing|].
  split; apply http_spawns_nothing.
Qed.

(** ** Exit status zero, and errors of the operating system *)

Section CommandSuccess.
Context `{Platform}.

Lemma custom_upload_zero self buildId path w cmd fd tmpName s1 s2 s3 s4 s5 :
  CustomArchive.canUpload self = true →
  CustomArchive.uploadCmd self = Some cmd →
  mkstemp (os w) = (Ok (fd, tmpName), s1) →
  os_close fd s1 = (Ok (), s2) →
  tar_write tmpName path s2 = (Ok (), s3) →
  subprocess_call ["/bin/bash"; "-ec"; cmd] "/tmp"
    (CustomArchive.child_env self (environ w) tmpName buildId) s3 = (Ok 0%Z, s4) →
  os_unlink tmpName s4 = (Ok (), s5) →
  CustomArchive.uploadPackage self buildId path w
  = (Ok (),
     {| environ := environ w;
        stdout := stdout (printed (colorize ("   UPLOAD    " ++ path) "32") w);
        spawned := spawned w ++
          [{| spawn_argv := ["/bin/bash"; "-ec"; cmd]; spawn_cwd := "/tmp";
              spawn_env := CustomArchive.child_env self (environ w) tmpName buildId |}];
        os := s5 |}).
Proof.
  intros Hcan Hcmd Hmk Hclose Htar Hcall Hunlink.
  unfold CustomArchive.uploadPackage, CustomArchive.bash. rewrite Hcan, Hcmd. run_body.
  rewrite Hmk. simpl. rewrite Hclose. simpl. rewrite Htar. simpl.
  rewrite Hcall. simpl. by rewrite Hunlink.
Qed.

Lemma custom_download_zero self buildId path w cmd fd tmpName s1 s2 s3 r w4 :
  CustomArchive.canDownload self = true →
  CustomArchive.downloadCmd self = Some cmd →
  mkstemp (os w) = (Ok (fd, tmpName), s1) →
  os_close fd s1 = (Ok (), s2) →
  subprocess_call ["/bin/bash"; "-ec"; cmd] "/tmp"
    (CustomArchive.child_env self (environ w) tmpName buildId) s2 = (Ok 0%Z, s3) →
  unpack tmpName path
    {| environ := environ w; stdout := stdout (announced path w);
       spawned := spawned w ++
         [{| spawn_argv := ["/bin/bash"; "-ec"; cmd]; spawn_cwd := "/tmp";
             spawn_env := CustomArchive.child_env self (environ w) tmpName buildId |}];
       os := s3 |} = (r, w4) →
  CustomArchive.downloadPackage self buildId path w
  = match os_unlink tmpName (os w4) with
    | (Raise e, s5) => (Raise e, with_os s5 match r with
                                            | Ok _ => printed (colorize "ok" "32") w4
                                            | Raise _ => w4
                                            end)
    | (Ok _, s5) =>
        match r with
        | Ok _ => (Ok true, with_os s5 (printed (colorize "ok" "32") w4))
        | Raise e =>
            (if isinstance_OSError e
             then Raise (BuildError ("Download failed: " ++ exn_text e))
             else Raise e,
             with_os s5 w4)
        end
    end.
Proof.
  intros Hcan Hcmd Hmk Hclose Hcall.
  unfold CustomArchive.downloadPackage, CustomArchive.bash, unpack, announced, printed, with_os.
  rewrite Hcan, Hcmd. run_body.
  rewrite Hmk. simpl. rewrite Hclose. simpl. rewrite Hcall. simpl.
  destruct (removePath path s3) as [[[]|e1] s3a] eqn:H1; simpl.
  - destruct (os_makedirs path s3a) as [[[]|e2] s3b] eqn:H2; simpl.
    + destruct (tar_extractall tmpName path s3b) as [[[]|e3] s3c] eqn:H3; simpl;
        intros [= <- <-]; simpl.
      * by destruct (os_unlink tmpName s3c) as [[[]|e] s5].
      * destruct (isinstance_OSError e3); simpl;
          by destruct (os_unlink tmpName s3c) as [[[]|e] s5].
    + intros [= <- <-]; simpl. destruct (isinstance_OSError e2); simpl;
        by destruct (os_unlink tmpName s3b) as [[[]|e] s5].
  - intros [= <- <-]; simpl. destruct (isinstance_OSError e1); simpl;
      by destruct (os_unlink tmpName s3a) as [[[]|e] s5].
Qed.

End CommandSuccess.

(** X12.  When the command of the external-command back end ends with
    status zero and the temporary file can be removed, [uploadPackage]
    returns, and [downloadPackage] unpacks the temporary file into the
    destination, prints "ok" and answers true.  When the unpacking raises an
    [OSError] the download ends with a [BuildError] that carries its text. *)
Theorem command_zero_exit `{Platform}
    (self : CustomArchive.t) (buildId : list byte) (path : string) (w : World)
    (cmd : string) (fd : Z) (tmpName : string) (s1 s2 : OSState) :
  mkstemp (os w) = (Ok (fd, tmpName), s1) →
  os_close fd s1 = (Ok (), s2) →
  (∀ s3 s4 s5,
     CustomArchive.canUpload self = true →
     CustomArchive.uploadCmd self = Some cmd →
     tar_write tmpName path s2 = (Ok (), s3) →
     subprocess_call ["/bin/bash"; "-ec"; cmd] "/tmp"
       (CustomArchive.child_env self (environ w) tmpName buildId) s3 = (Ok 0%Z, s4) →
     os_unlink tmpName s4 = (Ok (), s5) →
     (CustomArchive.uploadPackage self buildId path w).1 = Ok ()
     ∧ os (CustomArchive.uploadPackage self buildId path w).2 = s5)
  ∧ (∀ s3 r w4 s5,
       CustomArchive.canDownload self = true →
       CustomArchive.downloadCmd self = Some cmd →
       subprocess_call ["/bin/bash"; "-ec"; cmd] "/tmp"
         (CustomArchive.child_env self (environ w) tmpName buildId) s2 = (Ok 0%Z, s3) →
       unpack tmpName path
         {| environ := environ w; stdout := stdout (announced path w);
            spawned := spawned w ++
              [{| spawn_argv := ["/bin/bash"; "-ec"; cmd]; spawn_cwd := "/tmp";
                  spawn_env := CustomArchive.child_env self (environ w) tmpName buildId |}];
            os := s3 |} = (r, w4) →
       os_unlink tmpName (os w4) = (Ok (), s5) →
       (r = Ok () →
          CustomArchive.downloadPackage self buildId path w
          = (Ok true, with_os s5 (printed (colorize "ok" "32") w4)))
       ∧ (∀ e, r = Raise e → isinstance_OSError e = true →
            (CustomArchive.downloadPackage self buildId path w).1
            = Raise (BuildError ("Download failed: " ++ exn_text e)))).
Proof.
  intros Hmk Hclose. split.
  - intros s3 s4 s5 Hcan Hcmd Htar Hcall Hunlink.
    by rewrite (custom_upload_zero _ _ _ _ _ _ _ _ _ _ _ _
                  Hcan Hcmd Hmk Hclose Htar Hcall Hunlink).
  - intros s3 r w4 s5 Hcan Hcmd Hcall Hunpack Hunlink.
    rewrite (custom_download_zero _ _ _ _ _ _ _ _ _ _ _ _
               Hcan Hcmd Hmk Hclose Hcall Hunpack), Hunlink.
    split; [by intros ->|]. intros e -> He. simpl. by rewrite He.
Qed.

Lemma command_zero_exit_witness :
  (CustomArchive.uploadPackage (H := Sim.platform)
     sim_shell Sim.buildId "/work" (sim_secret 0)).1 = Ok ()
  ∧ (CustomArchive.downloadPackage (H := Sim.platform)
       sim_shell Sim.buildId "/out" (sim_secret 0)).1 = Ok true
  ∧ (CustomArchive.downloadPackage (H := SimFull.platform)
       sim_shell Sim.buildId "/out" (SimFull.world 0)).1
    = Raise (BuildError "Download failed: No space left on device").
Proof.
  destruct (command_zero_exit (H := Sim.platform) sim_shell Sim.buildId "/work"
              (sim_secret 0) "put" 3 "/tmp/tmpfile" (os (sim_secret 0)) (os (sim_secret 0))
              eq_refl eq_refl) as [Hup _].
  destruct (command_zero_exit (H := Sim.platform) sim_shell Sim.buildId "/out"
              (sim_secret 0) "get" 3 "/tmp/tmpfile" (os (sim_secret 0)) (os (sim_secret 0))
              eq_refl eq_refl) as [_ Hdown].
  destruct (command_zero_exit (H := SimFull.platform) sim_shell Sim.buildId "/out"
              (SimFull.world 0) "get" 3 "/tmp/tmpfile" (os (SimFull.world 0))
              (os (SimFull.world 0)) eq_refl eq_refl) as [_ Hfull].
  split; [|split].
  - by destruct (Hup _ _ _ eq_refl eq_refl eq_refl eq_refl eq_refl).
  - destruct (Hdown _ _ _ _ eq_refl eq_refl eq_refl eq_refl eq_refl) as [Hok _].
    by rewrite (Hok eq_refl).
  - destruct (Hfull _ _ _ _ eq_refl eq_refl eq_refl eq_refl eq_refl) as [_ Herr].
    exact (Herr _ eq_refl eq_refl).
Defined.

Section Wrapping.
Context `{Platform}.





End Wrapping.



(** ** The factory *)

Section Factory.
Context `{Platform}.
Variable recipes : Recipes.

Lemma getSingleArchiver_single spec a :
  getSingleArchiver recipes spec = Ok a → is_single a = true.
Proof.
  unfold getSingleArchiver. repeat case_bool_decide; repeat case_match;
    intros; simplify_eq; done.
Qed.

Lemma getSingleArchiver_inert spec a :
  getSingleArchiver recipes spec = Ok a → canUpload a = false ∧ canDownload a = false.
Proof.
  unfold getSingleArchiver, LocalArchive.init, SimpleHttpArchive.init.
  repeat case_bool_decide; repeat case_match; intros; simplify_eq; done.
Qed.

Lemma getSingleArchivers_Ok specs l :
  getSingleArchivers recipes specs = Ok l
  ↔ Forall2 (λ spec a, getSingleArchiver recipes spec = Ok a) specs l.
Proof.
  revert l. induction specs as [|spec specs IH]; intros l; simpl.
  - split; [intros [= <-]; constructor|by intros ->%Forall2_nil_inv_l].
  - split.
    + destruct (getSingleArchiver recipes spec) as [a|e] eqn:Ha; [|done].
      destruct (getSingleArchivers recipes specs) as [l'|e]; [|done].
      intros [= <-]. constructor; [done|]. by apply IH.
    + intros (a & l' & Ha & Hl' & ->)%Forall2_cons_inv_l.
      apply IH in Hl'. by rewrite Ha, Hl'.
Qed.

Lemma getSingleArchivers_Raise good bad rest l e :
  getSingleArchivers recipes good = Ok l →
  getSingleArchiver recipes bad = Raise e →
  getSingleArchivers recipes (good ++ bad :: rest) = Raise e.
Proof.
  revert l. induction good as [|spec good IH]; intros l; simpl.
  - intros _ ->. done.
  - destruct (getSingleArchiver recipes spec) as [a|e'] eqn:Ha; [|done].
    destruct (getSingleArchivers recipes good) as [l'|e'] eqn:Hl'; [|done].
    intros _ Hbad. by rewrite (IH l' eq_refl Hbad).
Qed.

End Factory.

(** X14.  [getArchiver] of a list of specifications answers a composite
    with one member per specification, in order, each the archive
    [getSingleArchiver] builds from its specification and none of them a
    composite.  When a specification cannot be built, the call ends with the
    exception of the first such specification.  A back end name other than
    [file], [http], [shell] and [none] is a [BuildError] that names it; a
    specification without the key [backend] gives a [DummyArchive]; a [file]
    specification without [path] raises, but not a [BuildError]. *)
Theorem factory_builds_in_order `{Platform} (recipes : Recipes) (specs : list ArchiveSpec) :
  archiveSpec recipes = SpecList specs →
  (∀ a, getArchiver recipes = Ok a
        ↔ ∃ l, a = Multi l
               ∧ Forall2 (λ spec m, getSingleArchiver recipes spec = Ok m) specs l)
  ∧ (∀ l, getArchiver recipes = Ok (Multi l) →
          length l = length specs ∧ Forall (λ m, is_single m = true) l)
  ∧ (∀ good bad rest l e,
       specs = (good ++ bad :: rest)%list →
       Forall2 (λ spec m, getSingleArchiver recipes spec = Ok m) good l →
       getSingleArchiver recipes bad = Raise e →
       getArchiver recipes = Raise e)
  ∧ (∀ spec b,
       spec_backend spec = Some b →
       b ∉ ["file"; "http"; "shell"; "none"] →
       getSingleArchiver recipes spec = Raise (BuildError ("Invalid archive backend: " ++ b)))
  ∧ (∀ spec, spec_backend spec = None → getSingleArchiver recipes spec = Ok Dummy)
  ∧ (∀ spec,
       spec_backend spec = Some "file" → spec_path spec = None →
       ∃ e, getSingleArchiver recipes spec = Raise e ∧ isinstance_OSError e = false
            ∧ ∀ msg, e ≠ BuildError msg).
Proof.
  intros Hlist. unfold getArchiver. rewrite Hlist.
  split; [|split; [|split; [|split; [|split]]]].
  - intros a. split.
    + destruct (getSingleArchivers recipes specs) as [l|e] eqn:Hl; [|done].
      intros [= <-]. exists l. split; [done|]. by apply getSingleArchivers_Ok.
    + intros (l & -> & Hl). apply getSingleArchivers_Ok in Hl. by rewrite Hl.
  - intros l. destruct (getSingleArchivers recipes specs) as [l'|e] eqn:Hl; [|done].
    intros [= ->]. apply getSingleArchivers_Ok in Hl. split.
    + symmetry. by eapply Forall2_length.
    + clear Hlist. induction Hl as [|spec m specs l Hm _ IH]; constructor; [|done].
      by eapply getSingleArchiver_single.
  - intros good bad rest l e -> Hgood Hbad. apply getSingleArchivers_Ok in Hgood.
    by rewrite (getSingleArchivers_Raise recipes good bad rest l e Hgood Hbad).
  - intros spec b Hb Hother. unfold getSingleArchiver. rewrite Hb. simpl.
    rewrite !elem_of_cons, elem_of_nil in Hother.
    repeat case_bool_decide; try done; exfalso; apply Hother; auto.
  - intros spec Hb. unfold getSingleArchiver. by rewrite Hb.
  - intros spec Hb Hp. unfold getSingleArchiver, LocalArchive.init. rewrite Hb, Hp. simpl.
    eexists. split; [done|]. split; [done|]. intros msg. discriminate.
Qed.

(** A configuration of three back ends, and one whose second back end has a
    name the factory does not know. *)
Lemma factory_builds_in_order_witness :
  getArchiver (H := Sim.platform)
    {| envWhiteList := {["PATH"]};
       archiveSpec := SpecList [Sim.spec "file" (Some "/a") None None None;
                                Sim.spec "shell" None None (Some "put") (Some "get");
                                Sim.spec "none" None None None None] |}
  = Ok (Multi [Local sim_local; Custom sim_shell_fresh; Dummy])
  ∧ getArchiver (H := Sim.platform)
      {| envWhiteList := ∅;
         archiveSpec := SpecList [Sim.spec "file" (Some "/a") None None None;
                                  Sim.spec "ftp" None None None None;
                                  Sim.spec "file" None None None None] |}
    = Raise (BuildError "Invalid archive backend: ftp").
Proof.
  split.
  - destruct (factory_builds_in_order (H := Sim.platform)
                {| envWhiteList := {["PATH"]};
                   archiveSpec := SpecList [Sim.spec "file" (Some "/a") None None None;
                                            Sim.spec "shell" None None (Some "put") (Some "get");
                                            Sim.spec "none" None None None None] |}
                _ eq_refl) as [Hok _].
    apply Hok. eexists. split; [reflexivity|]. repeat constructor.
  - destruct (factory_builds_in_order (H := Sim.platform)
                {| envWhiteList := ∅;
                   archiveSpec := SpecList [Sim.spec "file" (Some "/a") None None None;
                                            Sim.spec "ftp" None None None None;
                                            Sim.spec "file" None None None None] |}
                _ eq_refl) as (_ & _ & Hbad & _).
    apply (Hbad [Sim.spec "file" (Some "/a") None None None]
             (Sim.spec "ftp" None None None None)
             [Sim.spec "file" None None None None] [Local sim_local]);
      [reflexivity|repeat constructor|reflexivity].
Defined.

(** X15.  Whatever the configuration, the archiver [getArchiver] answers
    with can neither upload nor download before a mutator is called: its
    transfers return at once and leave the world as it is, and its download
    script is empty.  Once download, or upload, is wanted, the capability is
    what the flags and commands of the members allow. *)
Theorem fresh_archiver_is_inert `{Platform} (recipes : Recipes) (a : archive) :
  getArchiver recipes = Ok a →
  canUpload a = false
  ∧ canDownload a = false
  ∧ (∀ buildId path w,
       uploadPackage a buildId path w = (Ok (), w)
       ∧ downloadPackage a buildId path w = (Ok false, w))
  ∧ (∀ buildIdFile tgzFile, download a buildIdFile tgzFile = "")
  ∧ canDownload (wantDownload a true) = allowedDownload a
  ∧ canUpload (wantUpload a true) = allowedUpload a.
Proof.
  intros Hget.
  assert (canUpload a = false ∧ canDownload a = false) as [Hup Hdown].
  { revert Hget. unfold getArchiver. destruct (archiveSpec recipes) as [spec|specs].
    - apply getSingleArchiver_inert.
    - destruct (getSingleArchivers recipes specs) as [l|e] eqn:Hl; [|done].
      intros [= <-]. apply getSingleArchivers_Ok in Hl. simpl.
      unfold MultiArchive.canUpload, MultiArchive.canDownload.
      induction Hl as [|spec m specs l Hm _ [IHu IHd]]; [done|]. simpl.
      destruct (getSingleArchiver_inert recipes spec m Hm) as [-> ->]. done. }
  split; [done|]. split; [done|]. split; [|split; [|split]].
  - intros buildId path w. by rewrite uploadPackage_disabled, downloadPackage_disabled.
  - intros buildIdFile tgzFile. by apply download_empty_iff.
  - by rewrite canDownload_wantDownload.
  - by rewrite canUpload_wantUpload.
Qed.

Lemma fresh_archiver_is_inert_witness :
  getArchiver (H := Sim.platform)
    {| envWhiteList := {["PATH"]};
       archiveSpec := SpecList [Sim.spec "file" (Some "/a") None None None;
                                Sim.spec "shell" None None (Some "put") (Some "get");
                                Sim.spec "none" None None None None] |}
  = Ok (Multi [Local sim_local; Custom sim_shell_fresh; Dummy])
  ∧ downloadPackage (H := Sim.platform)
      (Multi [Local sim_local; Custom sim_shell_fresh; Dummy]) Sim.buildId "/out" sim_stored
    = (Ok false, sim_stored).
Proof.
  split; [reflexivity|].
  destruct (fresh_archiver_is_inert (H := Sim.platform)
              {| envWhiteList := {["PATH"]};
                 archiveSpec := SpecList [Sim.spec "file" (Some "/a") None None None;
                                          Sim.spec "shell" None None (Some "put") (Some "get");
                                          Sim.spec "none" None None None None] |}
              (Multi [Local sim_local; Custom sim_shell_fresh; Dummy]) eq_refl)
    as (_ & _ & Hnoop & _).
  apply Hnoop.
Defined.

(** ** The two wanted flags *)

Lemma map_Forall_ext {A B} (f g : A → B) (l : list A) :
  Forall (λ x, f x = g x) l → map f l = map g l.
Proof. induction 1 as [|x l Hx _ IH]; simpl; [done|]. by rewrite Hx, IH. Qed.

Lemma canDownload_wantUpload (a : archive) (e : bool) :
  canDownload (wantUpload a e) = canDownload a.
Proof.
  induction a as [|a|a|a|archives IH] using archive_nested_ind; simpl; try done.
  unfold MultiArchive.canDownload, MultiArchive.wantUpload.
  rewrite existsb_fmap. by apply existsb_Forall_ext.
Qed.

Lemma canUpload_wantDownload (a : archive) (e : bool) :
  canUpload (wantDownload a e) = canUpload a.
Proof.
  induction a as [|a|a|a|archives IH] using archive_nested_ind; simpl; try done.
  unfold MultiArchive.canUpload, MultiArchive.wantDownload.
  rewrite existsb_fmap. by apply existsb_Forall_ext.
Qed.

Lemma wantDownload_twice (a : archive) (e1 e2 : bool) :
  wantDownload (wantDownload a e1) e2 = wantDownload a e2.
Proof.
  induction a as [|a|a|a|archives IH] using archive_nested_ind; simpl; try done.
  f_equal. unfold MultiArchive.wantDownload. rewrite map_map. by apply map_Forall_ext.
Qed.

Lemma wantUpload_twice (a : archive) (e1 e2 : bool) :
  wantUpload (wantUpload a e1) e2 = wantUpload a e2.
Proof.
  induction a as [|a|a|a|archives IH] using archive_nested_ind; simpl; try done.
  f_equal. unfold MultiArchive.wantUpload. rewrite map_map. by apply map_Forall_ext.
Qed.

Lemma want_commute (a : archive) (ed eu : bool) :
  wantUpload (wantDownload a ed) eu = wantDownload (wantUpload a eu) ed.
Proof.
  induction a as [|a|a|a|archives IH] using archive_nested_ind; simpl; try done.
  f_equal. unfold MultiArchive.wantUpload, MultiArchive.wantDownload.
  rewrite !map_map. by apply map_Forall_ext.
Qed.

(** X16.  The two wanted flags of an archive of any class are independent
    and the last call wins: [wantUpload] leaves [canDownload] as it is and
    [wantDownload] leaves [canUpload] as it is, a second call of a mutator
    overrides the first, and calls of the two mutators commute. *)
Theorem wanted_flags_are_independent (a : archive) (e1 e2 : bool) :
  canDownload (wantUpload a e1) = canDownload a
  ∧ canUpload (wantDownload a e1) = canUpload a
  ∧ wantDownload (wantDownload a e1) e2 = wantDownload a e2
  ∧ wantUpload (wantUpload a e1) e2 = wantUpload a e2
  ∧ wantUpload (wantDownload a e1) e2 = wantDownload (wantUpload a e2) e1
  ∧ canDownload (wantDownload (wantUpload a e1) false) = false
  ∧ canUpload (wantUpload (wantDownload a e1) false) = false.
Proof.
  split; [apply canDownload_wantUpload|]. split; [apply canUpload_wantDownload|].
  split; [apply wantDownload_twice|]. split; [apply wantUpload_twice|].
  split; [apply want_commute|].
  by rewrite canDownload_wantDownload, canUpload_wantUpload.
Qed.

(** ** The path of the file back end *)

Lemma lower_hex_take n s :
  string_forallb is_lower_hex s = true → string_forallb is_lower_hex (str_take n s) = true.
Proof.
  revert s. induction n as [|n IH]; intros [|c s]; simpl; try done.
  intros [Hc Hs]%andb_true_iff. rewrite Hc. by apply IH.
Qed.

Lemma lower_hex_drop n s :
  string_forallb is_lower_hex s = true → string_forallb is_lower_hex (str_drop n s) = true.
Proof.
  revert s. induction n as [|n IH]; intros [|c s]; simpl; try done.
  intros [Hc Hs]%andb_true_iff. by apply IH.
Qed.

Lemma lower_hex_not_absolute s :
  string_forallb is_lower_hex s = true → startswith "/" s = false.
Proof.
  destruct s as [|c s]; [done|]. intros Hall. simpl in Hall.
  apply andb_true_iff in Hall as [Hc _]. unfold startswith.
  change (String.prefix "/" (String c s))
    with (if ascii_dec "/" c then String.prefix "" s else false).
  destruct (ascii_dec "/" c) as [<-|Hne]; [|done].
  vm_compute in Hc. discriminate.
Qed.

Lemma endswith_char_app c a s :
  s ≠ "" → endswith_char c (a ++ s) = endswith_char c s.
Proof.
  intros Hs. induction a as [|x a IH]; [done|].
  change (endswith_char c (String x (a ++ s)) = endswith_char c s).
  simpl. destruct (a ++ s) as [|y r] eqn:Has; [|done].
  destruct a; [|done]. simpl in Has. done.
Qed.

Lemma lower_hex_no_trailing_slash s :
  string_forallb is_lower_hex s = true → endswith_char "/" s = false.
Proof.
  induction s as [|c s IH]; [done|]. simpl. intros [Hc Hs]%andb_true_iff.
  destruct s as [|d s]; [|by apply IH].
  apply bool_decide_eq_false. by intros ->.
Qed.

Lemma app_nonempty_r a s : s ≠ "" → a ++ s ≠ "".
Proof. intros Hs. destruct a; [done|]. done. Qed.

Lemma os_path_join2_relative a s :
  string_forallb is_lower_hex s = true →
  a ≠ "" → endswith_char "/" a = false →
  os_path_join2 a s = a ++ "/" ++ s.
Proof.
  intros Hhex Ha Hend. unfold os_path_join2.
  rewrite lower_hex_not_absolute by done. rewrite Hend.
  by rewrite bool_decide_eq_false_2.
Qed.

Lemma os_path_join2_first base s :
  string_forallb is_lower_hex s = true →
  os_path_join2 base s = key_prefix base ++ s.
Proof.
  intros Hhex. unfold os_path_join2, key_prefix.
  rewrite lower_hex_not_absolute by done.
  destruct (bool_decide (base = "") || endswith_char "/" base); [done|].
  by rewrite string_app_assoc.
Qed.

Lemma two_chars_nonempty s : String.length s = 2 → s ≠ "".
Proof. by destruct s. Qed.

(** X17.  For a build identifier of at least two bytes the file back end
    stores the package under its base directory at the very key the HTTP and
    external-command back ends use: the path is the base directory,
    followed by a slash unless it is empty or ends in one, followed by
    [_makeUrl] of the identifier. *)
Theorem local_file_is_base_plus_key (self : LocalArchive.t) (b : list byte) :
  (2 ≤ length b)%nat →
  LocalArchive.packageResultFile self b
  = key_prefix (LocalArchive.basePath self) ++ CustomArchive._makeUrl b.
Proof.
  intros Hb.
  pose proof (asHexStr_lower b) as Hhex. pose proof (length_asHexStr b) as Hlen.
  unfold LocalArchive.packageResultFile, LocalArchive.packageResultPath,
    CustomArchive._makeUrl, os_path_join. simpl foldl.
  set (h := asHexStr b) in *.
  assert (string_forallb is_lower_hex (slice 0 2 h) = true) as H1.
  { by apply lower_hex_take, lower_hex_drop. }
  assert (string_forallb is_lower_hex (slice 2 4 h) = true) as H2.
  { by apply lower_hex_take, lower_hex_drop. }
  assert (string_forallb is_lower_hex (slice_from 4 h) = true) as H3.
  { by apply lower_hex_drop. }
  assert (slice 0 2 h ≠ "") as N1.
  { apply two_chars_nonempty. unfold slice.
    rewrite length_str_take, length_str_drop. lia. }
  assert (slice 2 4 h ≠ "") as N2.
  { apply two_chars_nonempty. unfold slice.
    rewrite length_str_take, length_str_drop. lia. }
  rewrite (os_path_join2_first _ _ H1).
  rewrite (os_path_join2_relative _ _ H2).
  - rewrite (os_path_join2_relative _ _ H3).
    + change (join "/" [slice 0 2 h; slice 2 4 h; slice_from 4 h ++ ".tgz"])
        with (slice 0 2 h ++ "/" ++ slice 2 4 h ++ "/" ++ slice_from 4 h ++ ".tgz").
      by rewrite !string_app_assoc.
    + by apply app_nonempty_r, app_nonempty_r.
    + rewrite endswith_char_app by (by apply app_nonempty_r).
      rewrite (endswith_char_app _ "/") by done.
      by apply lower_hex_no_trailing_slash.
  - by apply app_nonempty_r.
  - rewrite endswith_char_app by done. by apply lower_hex_no_trailing_slash.
Qed.

Lemma local_file_is_base_plus_key_witness :
  (2 ≤ length Sim.buildId)%nat
  ∧ LocalArchive.packageResultFile sim_local Sim.buildId
    = "/a/" ++ CustomArchive._makeUrl Sim.buildId.
Proof.
  split; [vm_compute; lia|].
  apply (local_file_is_base_plus_key sim_local Sim.buildId). vm_compute. lia.
Defined.

(** A one-byte identifier shows that the bound is needed: the file back end
    and the other two then disagree on the key. *)
Example local_file_short_identifier :
  LocalArchive.packageResultFile sim_local [xaa] = "/a/aa/.tgz"
  ∧ CustomArchive._makeUrl [xaa] = "aa//.tgz".
Proof. split; reflexivity. Qed.

(** ** More on single transfers *)

Section SingleTransfers.
Context `{Platform}.

Lemma http_download_body self buildId path w :
  SimpleHttpArchive.canDownload self = true →
  ∀ localFilename s1 w2,
    urlretrieve (SimpleHttpArchive._makeUrl self buildId) (os w) = (Ok localFilename, s1) →
    unpack localFilename path (with_os s1 (announced path w)) = (Ok (), w2) →
    SimpleHttpArchive.downloadPackage self buildId path w
    = match urlcleanup (os w2) with
      | (Ok _, s3) => (Ok true, with_os s3 (printed (colorize "ok" "32") w2))
      | (Raise e, s3) => (Raise e, with_os s3 (printed (colorize "ok" "32") w2))
      end.
Proof.
  intros Hcan localFilename s1 w2 Hget.
  unfold SimpleHttpArchive.downloadPackage, unpack, announced, printed, with_os.
  rewrite Hcan. run_body. rewrite Hget. simpl.
  destruct (removePath path s1) as [[[]|e1] s1a]; simpl; [|done].
  destruct (os_makedirs path s1a) as [[[]|e2] s1b]; simpl; [|done].
  destruct (tar_extractall localFilename path s1b) as [[[]|e3] s1c]; simpl; [|done].
  intros [= <-]. simpl. by destruct (urlcleanup s1c) as [[[]|e] s3].
Qed.

Lemma http_download_cleans_up self buildId path w :
  SimpleHttpArchive.canDownload self = true →
  ends_with_urlcleanup (SimpleHttpArchive.downloadPackage self buildId path w).
Proof.
  intros Hcan. unfold ends_with_urlcleanup, SimpleHttpArchive.downloadPackage.
  rewrite Hcan. run_body.
  repeat (case_outcome; simpl); simplify_eq/=;
    match goal with
    | Hu : urlcleanup ?s = _ |- _ =>
        exists s; rewrite Hu; simpl; split; [done|intros; simplify_eq; done]
    end.
Qed.

Lemma local_upload_body self buildId path w :
  LocalArchive.canUpload self = true →
  os_path_isfile (LocalArchive.packageResultFile self buildId) (os w) = false →
  LocalArchive.uploadPackage self buildId path w
  = let w1 := printed (colorize ("   UPLOAD    " ++ path) "32") w in
    if os_path_isdir (LocalArchive.packageResultPath self buildId) (os w) then
      sys (tar_write (LocalArchive.packageResultFile self buildId) path) w1
    else
      match sys (os_makedirs (LocalArchive.packageResultPath self buildId)) w1 with
      | (Ok _, w2) => sys (tar_write (LocalArchive.packageResultFile self buildId) path) w2
      | (Raise e, w2) => (Raise e, w2)
      end.
Proof.
  intros Hcan Hfile. unfold LocalArchive.uploadPackage, printed. rewrite Hcan. run_body.
  rewrite Hfile. destruct (os_path_isdir _ (os w)); simpl; [done|].
  by destruct (os_makedirs _ (os w)) as [[[]|e] s1].
Qed.

End SingleTransfers.

(** X18.  With download enabled, [SimpleHttpArchive.downloadPackage] ends
    with [urlcleanup] on every way out, and an exception of the cleanup is
    the exception of the call.  When the transfer and the unpacking succeed
    and the cleanup does too, the call prints "ok" and answers true. *)
Theorem http_download_success_and_cleanup `{Platform}
    (self : SimpleHttpArchive.t) (buildId : list byte) (path : string) (w : World) :
  SimpleHttpArchive.canDownload self = true →
  ends_with_urlcleanup (SimpleHttpArchive.downloadPackage self buildId path w)
  ∧ (∀ localFilename s1 w2 s3,
       urlretrieve (SimpleHttpArchive._makeUrl self buildId) (os w) = (Ok localFilename, s1) →
       unpack localFilename path (with_os s1 (announced path w)) = (Ok (), w2) →
       urlcleanup (os w2) = (Ok (), s3) →
       SimpleHttpArchive.downloadPackage self buildId path w
       = (Ok true, with_os s3 (printed (colorize "ok" "32") w2))).
Proof.
  intros Hcan. split; [by apply http_download_cleans_up|].
  intros localFilename s1 w2 s3 Hget Hunpack Hclean.
  by rewrite (http_download_body self buildId path w Hcan localFilename s1 w2 Hget Hunpack),
    Hclean.
Qed.

Lemma http_download_success_and_cleanup_witness :
  SimpleHttpArchive.canDownload sim_http = true
  ∧ (SimpleHttpArchive.downloadPackage (H := Sim.platform)
       sim_http Sim.buildId "/out" (sim_answers 200)).1 = Ok true.
Proof.
  split; [reflexivity|].
  destruct (http_download_success_and_cleanup (H := Sim.platform)
              sim_http Sim.buildId "/out" (sim_answers 200) eq_refl) as [_ Hok].
  by rewrite (Hok "/tmp/download" (os (sim_answers 200)) _ (os (sim_answers 200))
                eq_refl eq_refl eq_refl).
Defined.

(** X19.  With upload enabled and no file for the build identifier in the
    archive, [LocalArchive.uploadPackage] prints the upload line, makes the
    two shard directories only when the inner one is no directory yet, and
    then writes the archive; the outcome of the call is the outcome of the
    write.  When the directories cannot be made nothing is written and the
    call ends with that exception as it is. *)
Theorem local_upload_writes `{Platform}
    (self : LocalArchive.t) (buildId : list byte) (path : string) (w : World) :
  LocalArchive.canUpload self = true →
  os_path_isfile (LocalArchive.packageResultFile self buildId) (os w) = false →
  (os_path_isdir (LocalArchive.packageResultPath self buildId) (os w) = true →
     LocalArchive.uploadPackage self buildId path w
     = sys (tar_write (LocalArchive.packageResultFile self buildId) path)
         (printed (colorize ("   UPLOAD    " ++ path) "32") w))
  ∧ (∀ s1,
       os_path_isdir (LocalArchive.packageResultPath self buildId) (os w) = false →
       os_makedirs (LocalArchive.packageResultPath self buildId) (os w) = (Ok (), s1) →
       LocalArchive.uploadPackage self buildId path w
       = sys (tar_write (LocalArchive.packageResultFile self buildId) path)
           (with_os s1 (printed (colorize ("   UPLOAD    " ++ path) "32") w)))
  ∧ (∀ e s1,
       os_path_isdir (LocalArchive.packageResultPath self buildId) (os w) = false →
       os_makedirs (LocalArchive.packageResultPath self buildId) (os w) = (Raise e, s1) →
       LocalArchive.uploadPackage self buildId path w
       = (Raise e, with_os s1 (printed (colorize ("   UPLOAD    " ++ path) "32") w))).
Proof.
  intros Hcan Hfile. rewrite local_upload_body by done. simpl. split; [|split].
  - by intros ->.
  - intros s1 -> Hmk. unfold sys at 1. simpl. by rewrite Hmk.
  - intros e s1 -> Hmk. unfold sys at 1. simpl. by rewrite Hmk.
Qed.

Lemma local_upload_writes_witness :
  LocalArchive.canUpload (LocalArchive.wantUpload sim_local true) = true
  ∧ os (LocalArchive.uploadPackage (H := Sim.platform)
          (LocalArchive.wantUpload sim_local true) Sim.buildId "/work" sim_empty).2
    = {| Sim.files := ["/a/aa/bb/ccdd000102030405060708090a0b.tgz"];
         Sim.http_status := 200; Sim.exit_status := 0 |}.
Proof.
  split; [reflexivity|].
  destruct (local_upload_writes (H := Sim.platform)
              (LocalArchive.wantUpload sim_local true) Sim.buildId "/work" sim_empty
              eq_refl eq_refl) as (_ & Hmake & _).
  by rewrite (Hmake (os sim_empty) eq_refl eq_refl).
Defined.

(** X20.  Downloading from a concatenation of two member lists is
    downloading from the first and, only when that answered false, from the
    second in the world the first left.  A member that raises ends the
    composite with its exception: the members after it are not asked. *)
Theorem composite_download_composes `{Platform} (buildId : list byte) (path : string) :
  (∀ l1 l2 w,
     downloadPackage (Multi (l1 ++ l2)) buildId path w
     = match downloadPackage (Multi l1) buildId path w with
       | (Ok true, w') => (Ok true, w')
       | (Ok false, w') => downloadPackage (Multi l2) buildId path w'
       | (Raise e, w') => (Raise e, w')
       end)
  ∧ (∀ before m after w w1 e w2,
       downloadPackage (Multi before) buildId path w = (Ok false, w1) →
       canDownload m = true →
       downloadPackage m buildId path w1 = (Raise e, w2) →
       downloadPackage (Multi (before ++ m :: after)) buildId path w = (Raise e, w2)).
Proof.
  split; [apply downloadPackage_app|].
  intros before m after w w1 e w2 Hbefore Hcan Hm.
  by rewrite downloadPackage_app, Hbefore, downloadPackage_cons, Hcan, Hm.
Qed.

Lemma composite_download_composes_witness :
  downloadPackage (H := SimFull.platform)
    (Multi ([Local sim_local; Dummy]
            ++ Local (LocalArchive.wantDownload sim_local true) :: [Http sim_http]))
    Sim.buildId "/out" (SimFull.world 0)
  = downloadPackage (H := SimFull.platform)
      (Local (LocalArchive.wantDownload sim_local true)) Sim.buildId "/out" (SimFull.world 0).
Proof.
  destruct (composite_download_composes (H := SimFull.platform) Sim.buildId "/out")
    as [_ Habort].
  erewrite Habort; [|reflexivity|reflexivity|vm_compute; reflexivity].
  vm_compute. reflexivity.
Defined.
